(** * find_growth_directories.py: report parser and growth comparator

    A shallow embedding of the script [find_growth_directories.py] and of
    the Python built-ins it calls, followed by the properties of the
    script that its specification states.

    Conventions of the embedding.
    - Text is a [string]; a character is a code point below 256, so that
      [isspace] and the digits are those of Python's [str] on that range.
    - A Python [float] is an IEEE 754 binary64 number, [spec_float] with
      precision 53 and maximal exponent 1024.
    - A [dict] keeps its keys in insertion order (Python 3.7 and later):
      an association list without duplicate keys.
    - A raised exception is the [Raise] branch of [result].
    - The file system is a function from file names to the decoded text
      of the file, [None] when the file cannot be opened, read or decoded.
      The exception of such a file is [FileError], whichever it is in
      Python: no property of this development depends on it. *)

From Stdlib Require Import ZArith List String Ascii Bool Lia DecimalString DecimalN.
From Stdlib Require Import Floats.SpecFloat.
Import ListNotations.

Local Open Scope string_scope.
Local Open Scope Z_scope.

(** ** Exceptions *)

(** The exceptions of the script. [FileError] is the exception that
    [open(file_name).readlines()] raises: an [OSError] for a file that cannot
    be opened or read, a [UnicodeDecodeError] for a file that is not text in
    the encoding of the locale. The script catches none of them. *)
Inductive exn : Type :=
| IndexError
| ValueError
| FileError
| SystemExit (code : Z).

Inductive result (A : Type) : Type :=
| Ok (a : A)
| Raise (e : exn).

Arguments Ok {A} a.
Arguments Raise {A} e.

Definition bind {A B : Type} (r : result A) (k : A -> result B) : result B :=
  match r with
  | Ok a => k a
  | Raise e => Raise e
  end.

Notation "x <- r ;; k" := (bind r (fun x => k))
  (at level 61, r at next level, right associativity).

(** [[ f(x) for x in l ]]: the elements are computed from left to right, and
    the first exception ends the comprehension. *)
Fixpoint list_comprehension {A B : Type} (f : A -> result B) (l : list A)
  : result (list B) :=
  match l with
  | [] => Ok []
  | x :: l' =>
      y <- f x ;;
      ys <- list_comprehension f l' ;;
      Ok (y :: ys)
  end.

(** ** Python built-ins on text *)

Module Py.

(** [str.isspace] on one character, for code points below 256. *)
Definition isspace (c : ascii) : bool :=
  let n := nat_of_ascii c in
  ((9 <=? n) && (n <=? 13))%nat
  || ((28 <=? n) && (n <=? 32))%nat
  || (n =? 133)%nat
  || (n =? 160)%nat.

Definition is_empty (s : string) : bool :=
  match s with
  | EmptyString => true
  | String _ _ => false
  end.

(** [s.split()] without argument: the maximal runs of characters that are
    not whitespace. [tok] is the token being collected. *)
Fixpoint split_from (tok : string) (s : string) : list string :=
  match s with
  | EmptyString => if is_empty tok then [] else [tok]
  | String c s' =>
      if isspace c
      then (if is_empty tok then split_from "" s' else tok :: split_from "" s')
      else split_from (tok ++ String c "") s'
  end.

Definition split (s : string) : list string := split_from "" s.

(** [sep.join(l)] *)
Fixpoint join (sep : string) (l : list string) : string :=
  match l with
  | [] => ""
  | [x] => x
  | x :: l' => x ++ sep ++ join sep l'
  end.

(** [s[:-1]] on a list *)
Definition but_last {A : Type} (s : list A) : list A := removelast s.

(** [s[-1]] on a list: [IndexError] on the empty list *)
Fixpoint item_last {A : Type} (s : list A) : result A :=
  match s with
  | [] => Raise IndexError
  | [x] => Ok x
  | _ :: s' => item_last s'
  end.

(** [l[-2:]] on a list *)
Definition last_two {A : Type} (l : list A) : list A :=
  skipn (List.length l - 2)%nat l.

Definition LF : ascii := ascii_of_nat 10.
Definition CR : ascii := ascii_of_nat 13.

(** [f.readlines()] of a file opened in text mode with universal newlines:
    the line ends "\n", "\r\n" and "\r" all end a line and are read as
    "\n"; a last line without line end is kept. [cur] is the line being
    collected. *)
Fixpoint readlines_from (cur : string) (s : string) : list string :=
  match s with
  | EmptyString => if is_empty cur then [] else [cur]
  | String c s' =>
      if Ascii.eqb c LF then (cur ++ String LF "") :: readlines_from "" s'
      else if Ascii.eqb c CR then
        match s' with
        | String c' s'' =>
            if Ascii.eqb c' LF
            then (cur ++ String LF "") :: readlines_from "" s''
            else (cur ++ String LF "") :: readlines_from "" s'
        | EmptyString => [cur ++ String LF ""]
        end
      else readlines_from (cur ++ String c "") s'
  end.

Definition readlines (content : string) : list string :=
  readlines_from "" content.

(** ** Python floats *)

Definition binary64 : Type := spec_float.

Definition prec : Z := 53.
Definition emax : Z := 1024.

(** [float(n)] of an integer, rounded to nearest even *)
Definition float_of_int (n : Z) : binary64 :=
  binary_normalize prec emax n 0 false.

(** [x - y] and [x > y] on floats *)
Definition sub (x y : binary64) : binary64 := SFsub prec emax x y.
Definition gt (x y : binary64) : bool := SFltb y x.

(** The value [(-1)^neg * m * 10^e] rounded to the nearest binary64 number,
    ties to even; an overflow gives an infinity, as [float] does. *)
Definition float_of_decimal (neg : bool) (m e : Z) : binary64 :=
  if m =? 0 then S754_zero neg
  else if 0 <=? e then
    binary_normalize prec emax (cond_Zopp neg (m * 10 ^ e)) 0 neg
  else
    let '(q, e2, l) := SFdiv_core_binary prec emax m 0 (10 ^ (- e)) 0 in
    binary_round_aux prec emax neg q e2 l.

Definition is_digit (c : ascii) : bool :=
  let n := nat_of_ascii c in ((48 <=? n) && (n <=? 57))%nat.

Definition digit_value (c : ascii) : Z := Z.of_nat (nat_of_ascii c) - 48.

(** The whitespace that [float] strips at both ends of its argument: the C
    whitespace and, above 127, the Unicode whitespace. *)
Definition float_space (c : ascii) : bool :=
  let n := nat_of_ascii c in
  ((9 <=? n) && (n <=? 13))%nat
  || (n =? 32)%nat || (n =? 133)%nat || (n =? 160)%nat.

Fixpoint lstrip (s : string) : string :=
  match s with
  | EmptyString => ""
  | String c s' => if float_space c then lstrip s' else s
  end.

Fixpoint rstrip (s : string) : string :=
  match s with
  | EmptyString => ""
  | String c s' =>
      let r := rstrip s' in
      if is_empty r && float_space c then "" else String c r
  end.

(** Underscores are allowed between two digits only, and are dropped.
    [prev] is the character before [s]. *)
Fixpoint drop_underscores (prev : ascii) (s : string) : option string :=
  match s with
  | EmptyString => if Ascii.eqb prev "_" then None else Some ""
  | String c s' =>
      if Ascii.eqb c "_" then
        if is_digit prev then drop_underscores c s' else None
      else if Ascii.eqb prev "_" && negb (is_digit c) then None
      else option_map (String c) (drop_underscores c s')
  end.

Definition lower (c : ascii) : ascii :=
  let n := nat_of_ascii c in
  if ((65 <=? n) && (n <=? 90))%nat then ascii_of_nat (n + 32) else c.

Fixpoint lower_string (s : string) : string :=
  match s with
  | EmptyString => ""
  | String c s' => String (lower c) (lower_string s')
  end.

Definition parse_sign (s : string) : bool * string :=
  match s with
  | String c s' =>
      if Ascii.eqb c "-" then (true, s')
      else if Ascii.eqb c "+" then (false, s')
      else (false, s)
  | EmptyString => (false, s)
  end.

(** The leading decimal digits of [s], and what follows them. *)
Fixpoint span_digits (s : string) : list Z * string :=
  match s with
  | String c s' =>
      if is_digit c
      then let '(ds, rest) := span_digits s' in (digit_value c :: ds, rest)
      else ([], s)
  | EmptyString => ([], s)
  end.

Definition int_of_digits (ds : list Z) : Z :=
  fold_left (fun a d => 10 * a + d) ds 0.

(** exponent ::= ("e" | "E") [sign] digit+, or nothing; up to the end *)
Definition parse_exponent (s : string) : option Z :=
  match s with
  | EmptyString => Some 0
  | String c s' =>
      if Ascii.eqb (lower c) "e" then
        let '(neg, s'') := parse_sign s' in
        match span_digits s'' with
        | ((_ :: _) as ds, EmptyString) => Some (cond_Zopp neg (int_of_digits ds))
        | _ => None
        end
      else None
  end.

(** number ::= [digit+] "." digit+ | digit+ ["."], then the exponent: the
    decimal mantissa and the power of ten. *)
Definition parse_number (s : string) : option (Z * Z) :=
  let '(ip, r1) := span_digits s in
  let '(fp, r2) :=
    match r1 with
    | String c r => if Ascii.eqb c "." then span_digits r else ([], r1)
    | EmptyString => ([], r1)
    end in
  match (ip ++ fp)%list with
  | [] => None
  | ds =>
      match parse_exponent r2 with
      | Some e => Some (int_of_digits ds, e - Z.of_nat (List.length fp))
      | None => None
      end
  end.

(** [float(s)] of a string: [ValueError] when [s] is not a float literal. *)
Definition float (s : string) : result binary64 :=
  match drop_underscores Ascii.zero (rstrip (lstrip s)) with
  | None => Raise ValueError
  | Some t =>
      let '(neg, body) := parse_sign t in
      let word := lower_string body in
      if String.eqb word "inf" || String.eqb word "infinity"
      then Ok (S754_infinity neg)
      else if String.eqb word "nan" then Ok S754_nan
      else
        match parse_number body with
        | Some (m, e) => Ok (float_of_decimal neg m e)
        | None => Raise ValueError
        end
  end.

(** ** Formatting a float with the format specification [.2]

    Without a presentation type and with precision 2, [format] rounds the
    exact value of the float to two significant decimal digits (to nearest,
    ties to even), drops a trailing zero digit, and prints the result in
    fixed notation, with at least one digit after the point, when the
    decimal point position [decpt] is between -3 and 1, and in scientific
    notation otherwise. *)

(** The positive value [m * 2^e] as a fraction [n / d]. *)
Definition fraction_of (m : positive) (e : Z) : Z * Z :=
  if 0 <=? e then (Zpos m * 2 ^ e, 1) else (Zpos m, 2 ^ (- e)).

(** While [100 <= n / d], divide by ten; [k] is the position of the decimal
    point: the value is [n / d * 10^(k - 2)] throughout. *)
Fixpoint scale_down (fuel : nat) (n d k : Z) : Z * Z :=
  match fuel with
  | O => (d, k)
  | S fuel' =>
      if 100 * d <=? n then scale_down fuel' n (10 * d) (k + 1) else (d, k)
  end.

(** While [n / d < 10], multiply by ten. *)
Fixpoint scale_up (fuel : nat) (n d k : Z) : Z * Z :=
  match fuel with
  | O => (n, k)
  | S fuel' =>
      if n <? 10 * d then scale_up fuel' (10 * n) d (k - 1) else (n, k)
  end.

(** [n / d] rounded to an integer, to nearest and ties to even *)
Definition round_half_even (n d : Z) : Z :=
  let q := n / d in
  let r := n mod d in
  match 2 * r ?= d with
  | Lt => q
  | Gt => q + 1
  | Eq => if Z.even q then q else q + 1
  end.

(** The two significant digits of the positive value [n / d], as an integer
    between 10 and 99, and the position [decpt] of the decimal point: the
    value is about [0.d1d2 * 10^decpt]. *)
Definition two_digits (n d : Z) : Z * Z :=
  let '(d1, k1) := scale_down (S (Z.to_nat (Z.log2 n))) n d 2 in
  let '(n2, k2) := scale_up (Z.to_nat (Z.log2 d1) + 2) n d1 k1 in
  let r := round_half_even n2 d1 in
  if r =? 100 then (10, k2 + 1) else (r, k2).

Definition digit_char (d : Z) : ascii := ascii_of_nat (48 + Z.to_nat d).

Fixpoint zeros (n : nat) : string :=
  match n with
  | O => ""
  | S n' => String "0" (zeros n')
  end.

(** A natural number in decimal, with two digits at least. *)
Definition exponent_digits (n : Z) : string :=
  if n <? 10 then String "0" (String (digit_char n) "")
  else DecimalString.NilZero.string_of_uint (N.to_uint (Z.to_N n)).

(** The text of a positive value with first digit [c1], second digit [c2]
    ([last] when it is a zero, which is dropped) and point position [decpt]:
    scientific notation when [decpt <= -4] or [decpt > 1], and fixed
    notation otherwise, with [.0] added to an integer. *)
Definition render_chars (c1 c2 : ascii) (last : bool) (decpt : Z) : string :=
  if (decpt <=? -4) || (1 <? decpt) then
    String c1 (if last then "" else String "." (String c2 ""))
    ++ String "e" (String (if decpt - 1 <? 0 then "-" else "+")
                      (exponent_digits (Z.abs (decpt - 1))))
  else if decpt =? 1 then
    String c1 (String "." (String c2 ""))
  else
    "0." ++ zeros (Z.to_nat (- decpt))
         ++ String c1 (if last then "" else String c2 "").

Definition render (r decpt : Z) : string :=
  render_chars (digit_char (r / 10)) (digit_char (r mod 10))
               (r mod 10 =? 0) decpt.

(** ['{:.2}'.format(x)] *)
Definition format_2 (x : binary64) : string :=
  match x with
  | S754_nan => "nan"
  | S754_infinity s => if s then "-inf" else "inf"
  | S754_zero s => if s then "-0.0" else "0.0"
  | S754_finite s m e =>
      let '(n, d) := fraction_of m e in
      let '(r, decpt) := two_digits n d in
      (if s then "-" else "") ++ render r decpt
  end.

(** ** dict

    The keys are in insertion order; assigning to a key that is present
    replaces its value and leaves its position. *)

Definition dict (V : Type) : Type := list (string * V).

(** [d[k] = v] *)
Fixpoint setitem {V : Type} (d : dict V) (k : string) (v : V) : dict V :=
  match d with
  | [] => [(k, v)]
  | (k', v') :: d' =>
      if String.eqb k' k then (k', v) :: d' else (k', v') :: setitem d' k v
  end.

(** [d.get(k, default)] *)
Fixpoint get {V : Type} (d : dict V) (k : string) (default : V) : V :=
  match d with
  | [] => default
  | (k', v') :: d' => if String.eqb k' k then v' else get d' k default
  end.

(** [d.items()] and [d.keys()] *)
Definition items {V : Type} (d : dict V) : list (string * V) := d.
Definition keys {V : Type} (d : dict V) : list string := map fst d.

End Py.

(** ** The script *)

Definition filesystem : Type := string -> option string.

Definition SizeReport : Type := Py.dict Py.binary64.

(** [open(file_name).readlines()]: the lines of the decoded text of the
    file, or the exception of a file that cannot be opened, read or
    decoded. *)
Definition open_readlines (fs : filesystem) (file_name : string)
  : result (list string) :=
  match fs file_name with
  | Some content => Ok (Py.readlines content)
  | None => Raise FileError
  end.

(** One item of the dict comprehension of [into_dict], for the tokens [s] of
    a line: the key [' '.join(s[:-1])] and the value [float(s[-1])]. *)
Definition item_of_tokens (s : list string) : result (string * Py.binary64) :=
  let key := Py.join " " (Py.but_last s) in
  t <- Py.item_last s ;;
  value <- Py.float t ;;
  Ok (key, value).

(** The dict comprehension: the items are computed and stored in the order
    of the lines; [d] is the dict built so far. *)
Fixpoint dict_comprehension (d : SizeReport) (rows : list (list string))
  : result SizeReport :=
  match rows with
  | [] => Ok d
  | s :: rows' =>
      kv <- item_of_tokens s ;;
      dict_comprehension (Py.setitem d (fst kv) (snd kv)) rows'
  end.

Definition into_dict (fs : filesystem) (file_name : string)
  : result SizeReport :=
  lines <- open_readlines fs file_name ;;
  dict_comprehension [] (map Py.split lines).

(** The line that [print('{} {:.2}'.format(dir, growth))] writes. *)
Definition output_line (dir : string) (growth : Py.binary64) : string :=
  dir ++ " " ++ Py.format_2 growth.

(** The [for] loop over [newer.items()]; [stdout] holds the lines printed so
    far. *)
Fixpoint main_loop (older : SizeReport) (newer_items : list (string * Py.binary64))
  (stdout : list string) : list string :=
  match newer_items with
  | [] => stdout
  | (dir, size) :: rest =>
      let growth := Py.sub size (Py.get older dir (Py.float_of_int 0)) in
      if Py.gt growth (Py.float_of_int 0)
      then main_loop older rest (stdout ++ [output_line dir growth])%list
      else main_loop older rest stdout
  end.

(** How the interpreter ends: at the end of the script, by [sys.exit], or by
    an exception that nothing catches (a traceback and exit status 1). *)
Inductive termination : Type :=
| Finished
| Exited (code : Z)
| Uncaught (e : exn).

Definition terminate (e : exn) : termination :=
  match e with
  | SystemExit code => Exited code
  | _ => Uncaught e
  end.

Definition exit_code (t : termination) : Z :=
  match t with
  | Finished => 0
  | Exited code => code
  | Uncaught _ => 1
  end.

(** What a run leaves: the lines printed on standard output, the text the
    script wrote to [sys.stderr], and how it ended. *)
Record process : Type := {
  stdout : list string;
  stderr : string;
  status : termination
}.

Definition usage : string := "expected two file arguments: old new".

(** The script, run with [sys.argv = argv] on the file system [fs]. *)
Definition script (fs : filesystem) (argv : list string) : process :=
  if negb (List.length argv =? 3)%nat then
    {| stdout := [];
       stderr := usage ++ String Py.LF "";
       status := terminate (SystemExit 1) |}
  else
    match list_comprehension (into_dict fs) (Py.last_two argv) with
    | Raise e => {| stdout := []; stderr := ""; status := terminate e |}
    | Ok [older; newer] =>
        {| stdout := main_loop older (Py.items newer) [];
           stderr := "";
           status := Finished |}
    | Ok _ => {| stdout := []; stderr := ""; status := terminate ValueError |}
    end.

(** ** Notions of the specification *)

Definition zero : Py.binary64 := Py.float_of_int 0.

(** The growth entries of the specification: for each item of the newer
    report, in its order, the directory and [size - older.get(dir, 0)],
    kept when the growth is above zero. *)
Definition growth_of (older : SizeReport) (item : string * Py.binary64)
  : string * Py.binary64 :=
  (fst item, Py.sub (snd item) (Py.get older (fst item) zero)).

Definition growth_entries (older newer : SizeReport)
  : list (string * Py.binary64) :=
  filter (fun entry => Py.gt (snd entry) zero)
         (map (growth_of older) (Py.items newer)).

Definition entry_line (entry : string * Py.binary64) : string :=
  output_line (fst entry) (snd entry).

(** The value stored under a key, if any. *)
Fixpoint find_item {V : Type} (d : Py.dict V) (k : string) : option V :=
  match d with
  | [] => None
  | (k', v) :: d' => if String.eqb k' k then Some v else find_item d' k
  end.

(** The value of the last pair with key [k] in a list of pairs. *)
Fixpoint last_value {V : Type} (kvs : list (string * V)) (k : string)
  : option V :=
  match kvs with
  | [] => None
  | (k', v) :: kvs' =>
      match last_value kvs' k with
      | Some v' => Some v'
      | None => if String.eqb k' k then Some v else None
      end
  end.

(** The keys of [ks] that are not in [seen], each at its first occurrence. *)
Fixpoint first_occurrences (seen ks : list string) : list string :=
  match ks with
  | [] => []
  | k :: ks' =>
      if existsb (String.eqb k) seen then first_occurrences seen ks'
      else k :: first_occurrences (seen ++ [k])%list ks'
  end.

(** The keys of [ks], each at its last occurrence. *)
Fixpoint last_occurrences (ks : list string) : list string :=
  match ks with
  | [] => []
  | k :: ks' =>
      if existsb (String.eqb k) ks' then last_occurrences ks'
      else k :: last_occurrences ks'
  end.

(** The items that the lines of a report give, one per line. *)
Definition line_items (content : string)
  : result (list (string * Py.binary64)) :=
  list_comprehension item_of_tokens (map Py.split (Py.readlines content)).

(** The number of significant digits that a formatted number shows: the
    digits of its mantissa, from the first one that is not zero. *)
Fixpoint mantissa (s : string) : string :=
  match s with
  | EmptyString => ""
  | String c s' => if Ascii.eqb c "e" then "" else String c (mantissa s')
  end.

Fixpoint skip_zeros (s : string) : string :=
  match s with
  | EmptyString => ""
  | String c s' =>
      if Ascii.eqb c "0" || Ascii.eqb c "." then skip_zeros s' else s
  end.

Fixpoint count_digits (s : string) : nat :=
  match s with
  | EmptyString => O
  | String c s' =>
      if Py.is_digit c then S (count_digits s') else count_digits s'
  end.

Definition significant_digits (s : string) : nat :=
  count_digits (skip_zeros (mantissa s)).

(** A file system with two reports, for the examples. *)
Definition two_reports (old_text new_text : string) : filesystem :=
  fun file_name =>
    if String.eqb file_name "old" then Some old_text
    else if String.eqb file_name "new" then Some new_text
    else None.

Definition lines_text (lines : list string) : string :=
  String.concat "" (map (fun l => l ++ String Py.LF "") lines).

(** Storing a list of items, in order, in a dict. *)
Definition store_items (d : SizeReport) (kvs : list (string * Py.binary64))
  : SizeReport :=
  fold_left (fun d kv => Py.setitem d (fst kv) (snd kv)) kvs d.

(** A report that cannot be parsed: the file cannot be read, or the last
    token of one of its lines is not a float literal. *)
Definition bad_size (fs : filesystem) (file_name : string) : Prop :=
  exists content line tokens t,
    fs file_name = Some content /\ In line (Py.readlines content) /\
    Py.split line = (tokens ++ [t])%list /\ Py.float t = Raise ValueError.

Definition unparseable (fs : filesystem) (file_name : string) : Prop :=
  fs file_name = None \/ bad_size fs file_name.

(** The key that a line gives: its tokens but the last, joined by spaces. *)
Definition key_of_line (line : string) : string :=
  Py.join " " (Py.but_last (Py.split line)).

(** A string of whitespace only. *)
Fixpoint all_space (s : string) : bool :=
  match s with
  | EmptyString => true
  | String c s' => Py.isspace c && all_space s'
  end.

(** [r * 10^(decpt - 2)] differs from the positive value [n / d] by half a
    unit of the second digit at most. *)
Definition within_half_unit (n d r decpt : Z) : Prop :=
  if 2 <=? decpt
  then 2 * Z.abs (n - r * 10 ^ (decpt - 2) * d) <= 10 ^ (decpt - 2) * d
  else 2 * Z.abs (n * 10 ^ (2 - decpt) - r * d) <= d.

(** The positive value [n / d] in units of [10^(k - 2)], as a fraction. *)
Definition in_units (n d k : Z) : Z * Z :=
  if 2 <=? k then (n, d * 10 ^ (k - 2)) else (n * 10 ^ (2 - k), d).

(** No number [r' * 10^(k' - 2)] of two significant digits is nearer to the
    positive value [n / d] than [r * 10^(k - 2)] is. With [n / d] equal to
    [N / D] units of [10^(k - 2)], the other number is [r' * 10^(k' - k)]
    units; the two distances are compared after a multiplication by [D], and
    by [10^(k - k')] when [k' < k]. *)
Definition nearest_two_digits (n d r k : Z) : Prop :=
  forall r' k' : Z,
    10 <= r' <= 99 ->
    if k <=? k'
    then Z.abs (fst (in_units n d k) - r * snd (in_units n d k))
         <= Z.abs (fst (in_units n d k)
                   - r' * 10 ^ (k' - k) * snd (in_units n d k))
    else Z.abs (fst (in_units n d k) - r * snd (in_units n d k))
           * 10 ^ (k - k')
         <= Z.abs (fst (in_units n d k) * 10 ^ (k - k')
                   - r' * snd (in_units n d k)).

(** The digits of a decimal number of the library. *)
Fixpoint uint_digits (u : Decimal.uint) : list Z :=
  match u with
  | Decimal.Nil => []
  | Decimal.D0 u' => 0 :: uint_digits u'
  | Decimal.D1 u' => 1 :: uint_digits u'
  | Decimal.D2 u' => 2 :: uint_digits u'
  | Decimal.D3 u' => 3 :: uint_digits u'
  | Decimal.D4 u' => 4 :: uint_digits u'
  | Decimal.D5 u' => 5 :: uint_digits u'
  | Decimal.D6 u' => 6 :: uint_digits u'
  | Decimal.D7 u' => 7 :: uint_digits u'
  | Decimal.D8 u' => 8 :: uint_digits u'
  | Decimal.D9 u' => 9 :: uint_digits u'
  end.

(** A string without whitespace, and a token: such a string that is not
    empty. *)
Fixpoint no_space (s : string) : bool :=
  match s with
  | EmptyString => true
  | String c s' => negb (Py.isspace c) && no_space s'
  end.

Definition token (t : string) : Prop := t <> "" /\ no_space t = true.

(** A string of digits, points, signs and the letter [e] only. *)
Definition plain_char (c : ascii) : bool :=
  Py.is_digit c || Ascii.eqb c "." || Ascii.eqb c "e" || Ascii.eqb c "+"
  || Ascii.eqb c "-".

Fixpoint plain (s : string) : bool :=
  match s with
  | EmptyString => true
  | String c s' => plain_char c && plain s'
  end.

(** A string without line end. *)
Fixpoint no_newline (s : string) : bool :=
  match s with
  | EmptyString => true
  | String c s' =>
      negb (Ascii.eqb c Py.LF) && negb (Ascii.eqb c Py.CR) && no_newline s'
  end.

(** ** Tactics *)

(** The cases of a first digit [1 .. 9] and of a second digit [0 .. 9]. *)
Ltac digit_cases Hq Hm :=
  destruct Hq as [-> | [-> | [-> | [-> | [-> | [-> | [-> | [-> | ->]]]]]]]];
  destruct Hm as [-> | [-> | [-> | [-> | [-> | [-> | [-> | [-> | [-> | ->]]]]]]]]].

(** The characters of the digits that the goal names. *)
Ltac compute_digit_chars :=
  repeat match goal with
         | |- context [Py.digit_char ?n] =>
             let c := eval vm_compute in (Py.digit_char n) in
             change (Py.digit_char n) with c
         end.

(** The digits that the goal reads from a text. *)
Ltac compute_span_digits :=
  repeat match goal with
         | |- context [fst (Py.span_digits ?s)] =>
             let v := eval vm_compute in (fst (Py.span_digits s)) in
             change (fst (Py.span_digits s)) with v
         end.

(** * Properties *)

(** ** The exception monad *)

Lemma bind_ok {A B : Type} (r : result A) (k : A -> result B) (b : B) :
  bind r k = Ok b -> exists a, r = Ok a /\ k a = Ok b.
Proof.
  destruct r as [a | e]; simpl; intros H.
  - exists a. split; [reflexivity | exact H].
  - discriminate H.
Qed.

Lemma list_comprehension_raises {A B : Type} (f : A -> result B) (l : list A)
  (x : A) (e : exn) :
  In x l -> f x = Raise e -> exists e', list_comprehension f l = Raise e'.
Proof.
  induction l as [| y l IH]; simpl; [intros [] |].
  intros [-> | Hin] Hx.
  - rewrite Hx. exists e. reflexivity.
  - destruct (f y) as [b | e0]; simpl; [| exists e0; reflexivity].
    destruct (IH Hin Hx) as [e' ->]. exists e'. reflexivity.
Qed.

(** ** dict *)

Lemma find_item_setitem {V : Type} (d : Py.dict V) (k k' : string) (v : V) :
  find_item (Py.setitem d k v) k' =
  if String.eqb k k' then Some v else find_item d k'.
Proof.
  induction d as [| [k0 v0] d IH]; simpl.
  - reflexivity.
  - destruct (String.eqb k0 k) eqn:E0; simpl.
    + apply String.eqb_eq in E0. subst k0.
      destruct (String.eqb k k'); reflexivity.
    + rewrite IH. destruct (String.eqb k0 k') eqn:E1; [| reflexivity].
      apply String.eqb_eq in E1. rewrite <- E1.
      rewrite (String.eqb_sym k k0), E0. reflexivity.
Qed.

Lemma get_find_item {V : Type} (d : Py.dict V) (k : string) (default : V) :
  Py.get d k default =
  match find_item d k with Some v => v | None => default end.
Proof.
  induction d as [| [k0 v0] d IH]; simpl; [reflexivity |].
  destruct (String.eqb k0 k); [reflexivity | exact IH].
Qed.

Lemma existsb_eqb_In (k : string) (l : list string) :
  existsb (String.eqb k) l = true <-> In k l.
Proof.
  rewrite existsb_exists. split.
  - intros [x [Hin Heq]]. apply String.eqb_eq in Heq. subst x. exact Hin.
  - intros Hin. exists k. split; [exact Hin | apply String.eqb_refl].
Qed.

Lemma find_item_In {V : Type} (d : Py.dict V) (k : string) (v : V) :
  NoDup (Py.keys d) -> (In (k, v) (Py.items d) <-> find_item d k = Some v).
Proof.
  unfold Py.items.
  induction d as [| [k0 v0] d IH]; simpl; intros Hnd.
  - split; [intros [] | discriminate].
  - inversion Hnd as [| ? ? Hnotin Hnd']; subst.
    destruct (String.eqb k0 k) eqn:E.
    + apply String.eqb_eq in E. subst k0. split.
      * intros [Heq | Hin]; [congruence |].
        exfalso. apply Hnotin. apply (in_map fst) in Hin. exact Hin.
      * intros Heq. left. congruence.
    + apply String.eqb_neq in E. rewrite <- (IH Hnd'). split.
      * intros [Heq | Hin]; [congruence | exact Hin].
      * intros Hin. right. exact Hin.
Qed.

Lemma keys_setitem {V : Type} (d : Py.dict V) (k : string) (v : V) :
  Py.keys (Py.setitem d k v) =
  if existsb (String.eqb k) (Py.keys d) then Py.keys d
  else (Py.keys d ++ [k])%list.
Proof.
  unfold Py.keys.
  induction d as [| [k0 v0] d IH]; simpl; [reflexivity |].
  rewrite (String.eqb_sym k k0).
  destruct (String.eqb k0 k) eqn:E; simpl; [reflexivity |].
  rewrite IH. destruct (existsb (String.eqb k) (map fst d)); reflexivity.
Qed.

Lemma NoDup_snoc (l : list string) (k : string) :
  NoDup l -> ~ In k l -> NoDup (l ++ [k]).
Proof.
  induction l as [| x l IH]; simpl; intros Hnd Hnotin.
  - constructor; [intros [] | constructor].
  - inversion Hnd as [| ? ? Hx Hnd']; subst. constructor.
    + rewrite in_app_iff. simpl. intros [H | [H | []]]; [auto |].
      apply Hnotin. left. symmetry. exact H.
    + apply IH; [exact Hnd' |]. intros H. apply Hnotin. right. exact H.
Qed.

Lemma NoDup_keys_setitem {V : Type} (d : Py.dict V) (k : string) (v : V) :
  NoDup (Py.keys d) -> NoDup (Py.keys (Py.setitem d k v)).
Proof.
  intros Hnd. rewrite keys_setitem.
  destruct (existsb (String.eqb k) (Py.keys d)) eqn:E; [exact Hnd |].
  apply NoDup_snoc; [exact Hnd |].
  rewrite <- existsb_eqb_In. rewrite E. discriminate.
Qed.

Lemma dict_comprehension_items (d : SizeReport) (rows : list (list string)) :
  dict_comprehension d rows =
  (kvs <- list_comprehension item_of_tokens rows ;; Ok (store_items d kvs)).
Proof.
  revert d. induction rows as [| s rows IH]; intros d; simpl.
  - reflexivity.
  - destruct (item_of_tokens s) as [kv | e]; simpl; [| reflexivity].
    rewrite IH.
    destruct (list_comprehension item_of_tokens rows); reflexivity.
Qed.

Lemma find_item_store (d : SizeReport) (kvs : list (string * Py.binary64))
  (k : string) :
  find_item (store_items d kvs) k =
  match last_value kvs k with
  | Some v => Some v
  | None => find_item d k
  end.
Proof.
  unfold store_items. revert d.
  induction kvs as [| [k0 v0] kvs IH]; intros d; simpl.
  - reflexivity.
  - rewrite IH. destruct (last_value kvs k); [reflexivity |].
    rewrite find_item_setitem. destruct (String.eqb k0 k); reflexivity.
Qed.

Lemma NoDup_keys_store (d : SizeReport) (kvs : list (string * Py.binary64)) :
  NoDup (Py.keys d) -> NoDup (Py.keys (store_items d kvs)).
Proof.
  unfold store_items. revert d.
  induction kvs as [| kv kvs IH]; intros d Hnd; simpl.
  - exact Hnd.
  - apply IH. apply NoDup_keys_setitem. exact Hnd.
Qed.

Lemma keys_store (d : SizeReport) (kvs : list (string * Py.binary64)) :
  Py.keys (store_items d kvs) =
  (Py.keys d ++ first_occurrences (Py.keys d) (map fst kvs))%list.
Proof.
  unfold store_items. revert d.
  induction kvs as [| [k0 v0] kvs IH]; intros d; simpl.
  - rewrite app_nil_r. reflexivity.
  - rewrite IH, keys_setitem.
    destruct (existsb (String.eqb k0) (Py.keys d)); [reflexivity |].
    rewrite <- app_assoc. reflexivity.
Qed.

Lemma into_dict_items (fs : filesystem) (file_name content : string) :
  fs file_name = Some content ->
  into_dict fs file_name =
  (kvs <- line_items content ;; Ok (store_items [] kvs)).
Proof.
  intros Hfs. unfold into_dict, open_readlines, line_items.
  rewrite Hfs. simpl. apply dict_comprehension_items.
Qed.

Lemma into_dict_ok (fs : filesystem) (file_name : string) (d : SizeReport) :
  into_dict fs file_name = Ok d ->
  exists content kvs,
    fs file_name = Some content /\ line_items content = Ok kvs /\
    d = store_items [] kvs.
Proof.
  intros H. destruct (fs file_name) as [content |] eqn:Hfs.
  - rewrite (into_dict_items _ _ _ Hfs) in H.
    apply bind_ok in H. destruct H as [kvs [Hkvs Hd]].
    exists content, kvs. repeat split; [exact Hkvs | congruence].
  - unfold into_dict, open_readlines in H. rewrite Hfs in H. discriminate H.
Qed.

(** ** The loop and the script *)

Lemma main_loop_entries (older : SizeReport)
  (newer_items : list (string * Py.binary64)) (out : list string) :
  main_loop older newer_items out =
  (out ++ map entry_line
            (filter (fun entry => Py.gt (snd entry) zero)
                    (map (growth_of older) newer_items)))%list.
Proof.
  revert out. induction newer_items as [| [dir size] rest IH]; intros out.
  - simpl. rewrite app_nil_r. reflexivity.
  - cbn [main_loop map filter]. unfold growth_of at 1. cbn [fst snd].
    change (Py.float_of_int 0) with zero.
    destruct (Py.gt (Py.sub size (Py.get older dir zero)) zero).
    + rewrite IH, <- app_assoc. reflexivity.
    + apply IH.
Qed.

Lemma script_two_arguments (fs : filesystem) (prog old new : string) :
  script fs [prog; old; new] =
  match into_dict fs old with
  | Raise e => {| stdout := []; stderr := ""; status := terminate e |}
  | Ok older =>
      match into_dict fs new with
      | Raise e => {| stdout := []; stderr := ""; status := terminate e |}
      | Ok newer =>
          {| stdout := main_loop older (Py.items newer) [];
             stderr := "";
             status := Finished |}
      end
  end.
Proof.
  unfold script. simpl.
  destruct (into_dict fs old) as [older | e]; simpl; [| reflexivity].
  destruct (into_dict fs new) as [newer | e]; reflexivity.
Qed.

Lemma script_stdout (fs : filesystem) (prog old new : string)
  (older newer : SizeReport) :
  into_dict fs old = Ok older -> into_dict fs new = Ok newer ->
  stdout (script fs [prog; old; new]) =
  map entry_line (growth_entries older newer).
Proof.
  intros Hold Hnew. rewrite script_two_arguments, Hold, Hnew. simpl.
  rewrite main_loop_entries. reflexivity.
Qed.

Lemma growth_entries_In (older newer : SizeReport) (dir : string)
  (growth : Py.binary64) :
  In (dir, growth) (growth_entries older newer) <->
  exists size,
    In (dir, size) (Py.items newer) /\
    growth = Py.sub size (Py.get older dir zero) /\
    Py.gt growth zero = true.
Proof.
  unfold growth_entries. rewrite filter_In, in_map_iff. simpl. split.
  - intros [[[dir' size] [Heq Hin]] Hgt]. unfold growth_of in Heq. simpl in Heq.
    inversion Heq; subst. exists size. repeat split; [exact Hin | exact Hgt].
  - intros [size [Hin [Heq Hgt]]]. split; [| exact Hgt].
    exists (dir, size). split; [| exact Hin].
    unfold growth_of. simpl. rewrite Heq. reflexivity.
Qed.

(** ** Exceptions of the parser *)

Lemma float_raises (s : string) (e : exn) :
  Py.float s = Raise e -> e = ValueError.
Proof.
  unfold Py.float.
  destruct (Py.drop_underscores Ascii.zero (Py.rstrip (Py.lstrip s))) as [t |];
    [| intros H; inversion H; reflexivity].
  destruct (Py.parse_sign t) as [neg body].
  destruct (String.eqb (Py.lower_string body) "inf"
            || String.eqb (Py.lower_string body) "infinity"); [discriminate |].
  destruct (String.eqb (Py.lower_string body) "nan"); [discriminate |].
  destruct (Py.parse_number body) as [[m ex] |]; [discriminate |].
  intros H; inversion H; reflexivity.
Qed.

Lemma item_last_snoc {A : Type} (l : list A) (x : A) :
  Py.item_last (l ++ [x]) = Ok x.
Proof.
  induction l as [| y l IH]; simpl; [reflexivity |].
  destruct (l ++ [x])%list eqn:E; [destruct l; discriminate E | exact IH].
Qed.

Lemma item_last_raises {A : Type} (l : list A) (e : exn) :
  Py.item_last l = Raise e -> l = [] /\ e = IndexError.
Proof.
  induction l as [| y l IH]; simpl.
  - intros H; inversion H. split; reflexivity.
  - destruct l as [| z l]; [discriminate |].
    intros H. destruct (IH H) as [Hnil _]. discriminate Hnil.
Qed.

Lemma item_of_tokens_raises (s : list string) (e : exn) :
  item_of_tokens s = Raise e -> e = IndexError \/ e = ValueError.
Proof.
  unfold item_of_tokens.
  destruct (Py.item_last s) as [t |e0] eqn:El; simpl.
  - destruct (Py.float t) as [v | e1] eqn:Ef; simpl; [discriminate |].
    intros H; inversion H; subst. right. exact (float_raises _ _ Ef).
  - intros H; inversion H; subst. left.
    exact (proj2 (item_last_raises _ _ El)).
Qed.

Lemma list_comprehension_raise_inv {A B : Type} (f : A -> result B)
  (l : list A) (e : exn) :
  list_comprehension f l = Raise e -> exists x, In x l /\ f x = Raise e.
Proof.
  induction l as [| y l IH]; simpl; [discriminate |].
  destruct (f y) as [b | e0] eqn:Ey; simpl.
  - destruct (list_comprehension f l) as [ys | e1]; simpl; [discriminate |].
    intros H; inversion H; subst.
    destruct (IH eq_refl) as [x [Hin Hx]]. exists x. split; [right |]; assumption.
  - intros H; inversion H; subst. exists y. split; [left; reflexivity | exact Ey].
Qed.

Lemma into_dict_raises (fs : filesystem) (file_name : string) (e : exn) :
  into_dict fs file_name = Raise e ->
  e = FileError \/ e = IndexError \/ e = ValueError.
Proof.
  intros H. destruct (fs file_name) as [content |] eqn:Hfs.
  - rewrite (into_dict_items _ _ _ Hfs) in H. unfold line_items in H.
    destruct (list_comprehension item_of_tokens
                (map Py.split (Py.readlines content))) as [kvs | e0] eqn:E;
      simpl in H; [discriminate |].
    inversion H; subst.
    apply list_comprehension_raise_inv in E. destruct E as [s [_ Hs]].
    right. exact (item_of_tokens_raises _ _ Hs).
  - unfold into_dict, open_readlines in H. rewrite Hfs in H. simpl in H.
    inversion H. left. reflexivity.
Qed.

Lemma exit_code_terminate (e : exn) :
  e = FileError \/ e = IndexError \/ e = ValueError ->
  terminate e = Uncaught e /\ exit_code (terminate e) = 1.
Proof.
  intros [-> | [-> | ->]]; split; reflexivity.
Qed.

Lemma line_raises_into_dict (fs : filesystem) (file_name content line : string)
  (e : exn) :
  fs file_name = Some content -> In line (Py.readlines content) ->
  item_of_tokens (Py.split line) = Raise e ->
  exists e', into_dict fs file_name = Raise e'.
Proof.
  intros Hfs Hin Hline. rewrite (into_dict_items _ _ _ Hfs). unfold line_items.
  destruct (list_comprehension_raises item_of_tokens
              (map Py.split (Py.readlines content)) (Py.split line) e)
    as [e' He']; [apply in_map; exact Hin | exact Hline |].
  rewrite He'. exists e'. reflexivity.
Qed.

Lemma unparseable_raises (fs : filesystem) (file_name : string) :
  unparseable fs file_name -> exists e, into_dict fs file_name = Raise e.
Proof.
  intros [Hnone | [content [line [tokens [t [Hfs [Hin [Hsplit Hfloat]]]]]]]].
  - exists FileError. unfold into_dict, open_readlines. rewrite Hnone. reflexivity.
  - apply (line_raises_into_dict fs file_name content line ValueError Hfs Hin).
    unfold item_of_tokens. rewrite Hsplit, item_last_snoc. simpl.
    rewrite Hfloat. reflexivity.
Qed.

(** A run in which one of the two reports does not parse prints nothing and
    ends with a traceback. *)
Lemma script_raises (fs : filesystem) (prog old new : string) :
  (exists e, into_dict fs old = Raise e) \/
  (exists e, into_dict fs new = Raise e) ->
  stdout (script fs [prog; old; new]) = [] /\
  (exists e, status (script fs [prog; old; new]) = Uncaught e) /\
  exit_code (status (script fs [prog; old; new])) = 1.
Proof.
  intros H. rewrite script_two_arguments.
  destruct (into_dict fs old) as [older | e] eqn:Eold.
  - destruct H as [[e H] | [e H]]; [discriminate H |]. rewrite H. simpl.
    destruct (exit_code_terminate e (into_dict_raises _ _ _ H)) as [Ht Hc].
    split; [reflexivity |]. split; [exists e; exact Ht | exact Hc].
  - simpl.
    destruct (exit_code_terminate e (into_dict_raises _ _ _ Eold)) as [Ht Hc].
    split; [reflexivity |]. split; [exists e; exact Ht | exact Hc].
Qed.

(** ** The items of the lines of a parsed report *)

Lemma list_comprehension_Forall2 {A B : Type} (f : A -> result B)
  (l : list A) (ys : list B) :
  list_comprehension f l = Ok ys -> Forall2 (fun x y => f x = Ok y) l ys.
Proof.
  revert ys. induction l as [| x l IH]; simpl; intros ys H.
  - inversion H. constructor.
  - apply bind_ok in H. destruct H as [y [Hy H]].
    apply bind_ok in H. destruct H as [ys' [Hys H]].
    inversion H; subst. constructor; [exact Hy | apply IH; exact Hys].
Qed.

Lemma item_of_tokens_ok (s : list string) (kv : string * Py.binary64) :
  item_of_tokens s = Ok kv ->
  exists t,
    Py.item_last s = Ok t /\ Py.float t = Ok (snd kv) /\
    fst kv = Py.join " " (Py.but_last s).
Proof.
  unfold item_of_tokens. intros H.
  apply bind_ok in H. destruct H as [t [Ht H]].
  apply bind_ok in H. destruct H as [v [Hv H]].
  inversion H; subst. exists t. repeat split; assumption.
Qed.

Lemma last_value_absent {V : Type} (kvs : list (string * V)) (k : string) :
  ~ In k (map fst kvs) -> last_value kvs k = None.
Proof.
  induction kvs as [| [k0 v0] kvs IH]; simpl; intros H; [reflexivity |].
  rewrite IH by tauto.
  destruct (String.eqb k0 k) eqn:E; [| reflexivity].
  apply String.eqb_eq in E. tauto.
Qed.

Lemma last_value_app_Some {V : Type} (kvs1 kvs2 : list (string * V))
  (k : string) (v : V) :
  last_value kvs2 k = Some v -> last_value (kvs1 ++ kvs2) k = Some v.
Proof.
  intros H. induction kvs1 as [| [k0 v0] kvs1 IH]; simpl; [exact H |].
  rewrite IH. reflexivity.
Qed.

Lemma last_value_here {V : Type} (kvs1 kvs2 : list (string * V))
  (k : string) (v : V) :
  ~ In k (map fst kvs2) -> last_value (kvs1 ++ (k, v) :: kvs2) k = Some v.
Proof.
  intros H. apply last_value_app_Some. simpl.
  rewrite (last_value_absent _ _ H), String.eqb_refl. reflexivity.
Qed.

Lemma Forall2_keys (lines : list string) (kvs : list (string * Py.binary64)) :
  Forall2 (fun s kv => item_of_tokens s = Ok kv) (map Py.split lines) kvs ->
  map fst kvs = map key_of_line lines.
Proof.
  revert kvs. induction lines as [| l lines IH]; simpl; intros kvs H.
  - inversion H. reflexivity.
  - inversion H as [| ? kv ? kvs' Hkv Hrest]; subst. simpl.
    rewrite (IH _ Hrest).
    destruct (item_of_tokens_ok _ _ Hkv) as [t [_ [_ Hkey]]].
    rewrite Hkey. reflexivity.
Qed.

(** In a report that parses, every line has a last token that is a float
    literal, and the dict maps the key of the line to the value of that
    token unless a later line has the same key. *)
Lemma parsed_line_stored (fs : filesystem) (file_name content : string)
  (d : SizeReport) (before after : list string) (line : string) :
  fs file_name = Some content ->
  into_dict fs file_name = Ok d ->
  Py.readlines content = (before ++ line :: after)%list ->
  exists t v,
    Py.item_last (Py.split line) = Ok t /\ Py.float t = Ok v /\
    item_of_tokens (Py.split line) = Ok (key_of_line line, v) /\
    (~ In (key_of_line line) (map key_of_line after) ->
     find_item d (key_of_line line) = Some v).
Proof.
  intros Hfs Hd Hlines.
  rewrite (into_dict_items _ _ _ Hfs) in Hd.
  apply bind_ok in Hd. destruct Hd as [kvs [Hkvs Hd]]. inversion Hd; subst d.
  unfold line_items in Hkvs. rewrite Hlines, map_app in Hkvs. simpl in Hkvs.
  apply list_comprehension_Forall2 in Hkvs.
  apply Forall2_app_inv_l in Hkvs.
  destruct Hkvs as [kvs1 [kvs2 [_ [H2 ->]]]].
  inversion H2 as [| ? [k v] ? kvs3 Hkv Hafter]; subst.
  destruct (item_of_tokens_ok _ _ Hkv) as [t [Ht [Hv Hkey]]].
  simpl in Hv, Hkey. fold (key_of_line line) in Hkey. subst k.
  exists t, v. repeat split; [exact Ht | exact Hv | exact Hkv |].
  intros Hlater. rewrite find_item_store, last_value_here; [reflexivity |].
  rewrite (Forall2_keys _ _ Hafter). exact Hlater.
Qed.

(** ** Tokens *)

Lemma split_from_spaces (ws rest : string) :
  all_space ws = true ->
  Py.split_from "" (ws ++ rest) = Py.split_from "" rest.
Proof.
  induction ws as [| c ws IH]; simpl; intros H; [reflexivity |].
  apply andb_true_iff in H. destruct H as [Hc Hws].
  rewrite Hc. simpl. exact (IH Hws).
Qed.

Lemma split_from_collapse (a ws b tok : string) :
  ws <> "" -> all_space ws = true ->
  Py.split_from tok (a ++ ws ++ b) = Py.split_from tok (a ++ " " ++ b).
Proof.
  intros Hne Hws. revert tok. induction a as [| c a IH]; intros tok.
  - destruct ws as [| c ws]; [congruence |]. simpl in Hws.
    apply andb_true_iff in Hws. destruct Hws as [Hc Hws].
    change (Py.split_from tok (String c (ws ++ b)) =
            Py.split_from tok (String " " b)).
    cbn [Py.split_from]. rewrite Hc.
    change (Py.isspace " ") with true. cbv iota.
    rewrite (split_from_spaces ws b Hws). reflexivity.
  - change (Py.split_from tok (String c (a ++ ws ++ b)) =
            Py.split_from tok (String c (a ++ " " ++ b))).
    cbn [Py.split_from]. rewrite !IH. reflexivity.
Qed.

Lemma find_item_Some_In {V : Type} (d : Py.dict V) (k : string) (v : V) :
  find_item d k = Some v -> In (k, v) (Py.items d).
Proof.
  unfold Py.items. induction d as [| [k0 v0] d IH]; simpl; [discriminate |].
  destruct (String.eqb k0 k) eqn:E.
  - apply String.eqb_eq in E. intros H. inversion H; subst. left. reflexivity.
  - intros H. right. exact (IH H).
Qed.

Lemma last_value_present {V : Type} (kvs : list (string * V)) (k : string) :
  In k (map fst kvs) -> exists v, last_value kvs k = Some v.
Proof.
  induction kvs as [| [k0 v0] kvs IH]; simpl; [intros [] |].
  intros [Heq | Hin].
  - subst k0. destruct (last_value kvs k) as [v |]; [exists v; reflexivity |].
    rewrite String.eqb_refl. exists v0. reflexivity.
  - destruct (IH Hin) as [v ->]. exists v. reflexivity.
Qed.

Lemma Forall2_map_split {B : Type} (P : list string -> B -> Prop)
  (lines : list string) (ys : list B) :
  Forall2 P (map Py.split lines) ys ->
  Forall2 (fun line y => P (Py.split line) y) lines ys.
Proof.
  revert ys. induction lines as [| l lines IH]; simpl; intros ys H.
  - inversion H. constructor.
  - inversion H; subst. constructor; [assumption | apply IH; assumption].
Qed.

Lemma list_comprehension_first_raise {A B : Type} (f : A -> result B)
  (l1 l2 : list A) (x : A) (e : exn) :
  (forall y, In y l1 -> exists b, f y = Ok b) -> f x = Raise e ->
  list_comprehension f (l1 ++ x :: l2) = Raise e.
Proof.
  intros Hok Hx. induction l1 as [| y l1 IH]; simpl.
  - rewrite Hx. reflexivity.
  - destruct (Hok y (or_introl eq_refl)) as [b ->]. simpl.
    rewrite IH; [reflexivity |]. intros z Hz. apply Hok. right. exact Hz.
Qed.

(** ** The two digits of a formatted float *)

Lemma scale_down_spec (fuel : nat) (n d k : Z) :
  0 < d -> n < 100 * d * 10 ^ Z.of_nat fuel ->
  d <= fst (Py.scale_down fuel n d k) /\
  n < 100 * fst (Py.scale_down fuel n d k) /\
  (fst (Py.scale_down fuel n d k) = d \/
   10 * fst (Py.scale_down fuel n d k) <= n).
Proof.
  revert d k. induction fuel as [| fuel IH]; intros d k Hd Hn.
  - cbn [Py.scale_down fst]. change (Z.of_nat 0) with 0 in Hn.
    rewrite Z.pow_0_r in Hn. lia.
  - cbn [Py.scale_down]. destruct (100 * d <=? n) eqn:E.
    + apply Z.leb_le in E.
      destruct (IH (10 * d) (k + 1)) as [H1 [H2 H3]]; [lia | |].
      * rewrite Nat2Z.inj_succ, Z.pow_succ_r in Hn by lia. lia.
      * repeat split; [lia | exact H2 | right; lia].
    + apply Z.leb_gt in E. cbn [fst]. lia.
Qed.

Lemma scale_up_spec (fuel : nat) (n d k : Z) :
  0 < n -> 0 < d -> n < 100 * d -> 10 * d <= n * 10 ^ Z.of_nat fuel ->
  10 * d <= fst (Py.scale_up fuel n d k) < 100 * d.
Proof.
  revert n k. induction fuel as [| fuel IH]; intros n k Hn Hd Hlt Hfuel.
  - cbn [Py.scale_up fst]. change (Z.of_nat 0) with 0 in Hfuel.
    rewrite Z.pow_0_r in Hfuel. lia.
  - cbn [Py.scale_up]. destruct (n <? 10 * d) eqn:E.
    + apply Z.ltb_lt in E. apply IH; try lia.
      rewrite Nat2Z.inj_succ, Z.pow_succ_r in Hfuel by lia. lia.
    + apply Z.ltb_ge in E. cbn [fst]. lia.
Qed.

Lemma pow2_le_pow10 (a : Z) : 0 <= a -> 2 ^ a <= 10 ^ a.
Proof.
  intros Ha. apply Z.pow_le_mono_l. lia.
Qed.

Lemma round_half_even_bounds (n d : Z) :
  0 < d -> 10 * d <= n < 100 * d -> 10 <= Py.round_half_even n d <= 100.
Proof.
  intros Hd Hn. unfold Py.round_half_even.
  assert (Hlo : 10 <= n / d) by (apply Z.div_le_lower_bound; lia).
  assert (Hhi : n / d < 100) by (apply Z.div_lt_upper_bound; lia).
  destruct (2 * (n mod d) ?= d); [destruct (Z.even (n / d)) | |]; lia.
Qed.

Lemma two_digits_range (n d : Z) :
  0 < n -> 0 < d -> 10 <= fst (Py.two_digits n d) <= 99.
Proof.
  intros Hn Hd. unfold Py.two_digits.
  pose proof (Z.log2_nonneg n) as Hln.
  pose proof (Z.log2_spec n Hn) as Hspec.
  destruct (scale_down_spec (S (Z.to_nat (Z.log2 n))) n d 2 Hd) as [H1 [H2 _]].
  { rewrite Nat2Z.inj_succ, Z2Nat.id by lia.
    pose proof (pow2_le_pow10 (Z.succ (Z.log2 n)) ltac:(lia)). nia. }
  destruct (Py.scale_down (S (Z.to_nat (Z.log2 n))) n d 2) as [d1 k1].
  cbn [fst] in H1, H2.
  assert (Hd1 : 0 < d1) by lia.
  pose proof (Z.log2_nonneg d1) as Hld.
  pose proof (Z.log2_spec d1 Hd1) as Hspec1.
  pose proof (scale_up_spec (Z.to_nat (Z.log2 d1) + 2) n d1 k1 Hn Hd1 H2)
    as Hup.
  destruct (Py.scale_up (Z.to_nat (Z.log2 d1) + 2) n d1 k1) as [n2 k2].
  cbn [fst] in Hup.
  assert (Hn2 : 10 * d1 <= n2 < 100 * d1).
  { apply Hup. rewrite Nat2Z.inj_add, Z2Nat.id by lia.
    change (Z.of_nat 2) with 2.
    rewrite Z.pow_add_r by lia. change (10 ^ 2) with 100.
    pose proof (pow2_le_pow10 (Z.log2 d1) Hld).
    rewrite Z.pow_succ_r in Hspec1 by lia. nia. }
  pose proof (round_half_even_bounds n2 d1 Hd1 Hn2) as Hr.
  destruct (Py.round_half_even n2 d1 =? 100) eqn:E; cbn [fst].
  - lia.
  - apply Z.eqb_neq in E. lia.
Qed.

Lemma fraction_of_pos (m : positive) (e : Z) :
  0 < fst (Py.fraction_of m e) /\ 0 < snd (Py.fraction_of m e).
Proof.
  unfold Py.fraction_of. destruct (0 <=? e) eqn:E; cbn [fst snd].
  - apply Z.leb_le in E. pose proof (Z.pow_pos_nonneg 2 e). lia.
  - apply Z.leb_gt in E. pose proof (Z.pow_pos_nonneg 2 (- e)). lia.
Qed.

(** ** The two digits are within half a unit *)

Lemma scale_down_value (fuel : nat) (n d k : Z) :
  k <= snd (Py.scale_down fuel n d k) /\
  fst (Py.scale_down fuel n d k) = d * 10 ^ (snd (Py.scale_down fuel n d k) - k) /\
  (snd (Py.scale_down fuel n d k) = k \/
   10 * fst (Py.scale_down fuel n d k) <= n).
Proof.
  revert d k. induction fuel as [| fuel IH]; intros d k.
  - cbn [Py.scale_down fst snd]. rewrite Z.sub_diag, Z.pow_0_r. lia.
  - cbn [Py.scale_down]. destruct (100 * d <=? n) eqn:E.
    + apply Z.leb_le in E.
      destruct (IH (10 * d) (k + 1)) as [H1 [H2 H3]].
      set (p := Py.scale_down fuel n (10 * d) (k + 1)) in *.
      split; [lia |]. split.
      * rewrite H2.
        replace (snd p - k) with (Z.succ (snd p - (k + 1))) by lia.
        rewrite Z.pow_succ_r by lia. ring.
      * right. destruct H3 as [H3 | H3]; [| exact H3].
        rewrite H2, H3, Z.sub_diag, Z.pow_0_r. lia.
    + cbn [fst snd]. rewrite Z.sub_diag, Z.pow_0_r. lia.
Qed.

Lemma scale_up_value (fuel : nat) (n d k : Z) :
  snd (Py.scale_up fuel n d k) <= k /\
  fst (Py.scale_up fuel n d k) = n * 10 ^ (k - snd (Py.scale_up fuel n d k)).
Proof.
  revert n k. induction fuel as [| fuel IH]; intros n k.
  - cbn [Py.scale_up fst snd]. rewrite Z.sub_diag, Z.pow_0_r. lia.
  - cbn [Py.scale_up]. destruct (n <? 10 * d) eqn:E.
    + destruct (IH (10 * n) (k - 1)) as [H1 H2].
      set (p := Py.scale_up fuel (10 * n) d (k - 1)) in *.
      split; [lia |]. rewrite H2.
      replace (k - snd p) with (Z.succ (k - 1 - snd p)) by lia.
      rewrite Z.pow_succ_r by lia. ring.
    + cbn [fst snd]. rewrite Z.sub_diag, Z.pow_0_r. lia.
Qed.

Lemma scale_up_idle (fuel : nat) (n d k : Z) :
  10 * d <= n -> Py.scale_up fuel n d k = (n, k).
Proof.
  intros H. destruct fuel as [| fuel]; [reflexivity |].
  cbn [Py.scale_up]. apply Z.ltb_ge in H. rewrite H. reflexivity.
Qed.

Lemma round_half_even_error (n d : Z) :
  0 < d -> 2 * Z.abs (n - Py.round_half_even n d * d) <= d.
Proof.
  intros Hd. unfold Py.round_half_even.
  pose proof (Z.div_mod n d ltac:(lia)) as Hdm.
  pose proof (Z.mod_pos_bound n d Hd) as Hm.
  set (q := n / d) in *. set (m := n mod d) in *.
  assert (Hdown : n - q * d = m) by lia.
  assert (Hup : n - (q + 1) * d = m - d) by nia.
  destruct (Z.compare_spec (2 * m) d) as [E | E | E].
  - destruct (Z.even q); [rewrite Hdown | rewrite Hup]; lia.
  - rewrite Hdown. lia.
  - rewrite Hup. lia.
Qed.

Lemma two_digits_within_half_unit (n d : Z) :
  0 < n -> 0 < d ->
  within_half_unit n d (fst (Py.two_digits n d)) (snd (Py.two_digits n d)).
Proof.
  intros Hn Hd. unfold Py.two_digits.
  destruct (scale_down_value (S (Z.to_nat (Z.log2 n))) n d 2) as [Hk1 [Hd1 Hidle]].
  destruct (Py.scale_down (S (Z.to_nat (Z.log2 n))) n d 2) as [d1 k1].
  cbn [fst snd] in Hk1, Hd1, Hidle.
  assert (Hd1pos : 0 < d1).
  { rewrite Hd1. pose proof (Z.pow_pos_nonneg 10 (k1 - 2)). nia. }
  destruct (scale_up_value (Z.to_nat (Z.log2 d1) + 2) n d1 k1) as [Hk2 Hn2].
  pose proof (scale_up_idle (Z.to_nat (Z.log2 d1) + 2) n d1 k1) as Hidle2.
  destruct (Py.scale_up (Z.to_nat (Z.log2 d1) + 2) n d1 k1) as [n2 k2].
  cbn [fst snd] in Hk2, Hn2.
  pose proof (round_half_even_error n2 d1 Hd1pos) as Herr.
  set (r := Py.round_half_even n2 d1) in *.
  assert (Hcase : (k1 = 2 /\ d1 = d /\ n2 = n * 10 ^ (2 - k2) /\ k2 <= 2) \/
                  (n2 = n /\ k2 = k1)).
  { destruct Hidle as [-> | Hfar].
    - left. rewrite Z.sub_diag, Z.pow_0_r in Hd1. repeat split; lia.
    - right. specialize (Hidle2 Hfar). inversion Hidle2. split; reflexivity. }
  clear Hidle Hidle2.
  unfold within_half_unit.
  destruct Hcase as [[-> [-> [-> Hk2']]] | [-> ->]].
  - destruct (r =? 100) eqn:E100; cbn [fst snd].
    + apply Z.eqb_eq in E100. rewrite E100 in Herr.
      destruct (2 <=? k2 + 1) eqn:E2.
      * apply Z.leb_le in E2.
        assert (Hk : k2 = 1 \/ k2 = 2) by lia.
        destruct Hk as [-> | ->].
        -- change (10 ^ (1 + 1 - 2)) with 1. change (10 ^ (2 - 1)) with 10 in Herr.
           lia.
        -- change (10 ^ (2 + 1 - 2)) with 10. change (10 ^ (2 - 2)) with 1 in Herr.
           lia.
      * apply Z.leb_gt in E2.
        replace (2 - k2) with (Z.succ (2 - (k2 + 1))) in Herr by lia.
        rewrite Z.pow_succ_r in Herr by lia.
        set (Q := 10 ^ (2 - (k2 + 1))) in *.
        assert (HX : n * (10 * Q) = 10 * (n * Q)) by ring.
        rewrite HX in Herr. lia.
    + destruct (2 <=? k2) eqn:E2.
      * apply Z.leb_le in E2. assert (k2 = 2) by lia. subst k2.
        change (10 ^ (2 - 2)) with 1 in *. lia.
      * exact Herr.
  - rewrite Hd1 in Herr.
    destruct (r =? 100) eqn:E100; cbn [fst snd].
    + apply Z.eqb_eq in E100. rewrite E100 in Herr.
      destruct (2 <=? k1 + 1) eqn:E2; [| apply Z.leb_gt in E2; lia].
      replace (k1 + 1 - 2) with (Z.succ (k1 - 2)) by lia.
      rewrite Z.pow_succ_r by lia.
      set (P := 10 ^ (k1 - 2)) in *.
      assert (HY : 10 * (10 * P) * d = 100 * (d * P)) by ring.
      assert (HY' : 10 * P * d = 10 * (d * P)) by ring.
      rewrite HY, HY'. rewrite Hd1 in Hd1pos. lia.
    + destruct (2 <=? k1) eqn:E2; [| apply Z.leb_gt in E2; lia].
      set (P := 10 ^ (k1 - 2)) in *.
      assert (HY : r * P * d = r * (d * P)) by ring.
      assert (HY' : P * d = d * P) by ring.
      rewrite HY, HY'. exact Herr.
Qed.

(** ** The significant digits of the text *)

Lemma significant_digits_zeros (k : nat) (s : string) :
  significant_digits ("0." ++ Py.zeros k ++ s) = significant_digits s.
Proof.
  unfold significant_digits.
  change (count_digits (skip_zeros (mantissa (Py.zeros k ++ s))) =
          count_digits (skip_zeros (mantissa s))).
  induction k as [| k IH]; [reflexivity | exact IH].
Qed.

Lemma significant_digits_render_chars (q m decpt : Z) :
  1 <= q <= 9 -> 0 <= m <= 9 ->
  significant_digits
    (Py.render_chars (Py.digit_char q) (Py.digit_char m) (m =? 0) decpt) =
  if (m =? 0) && negb (decpt =? 1) then 1%nat else 2%nat.
Proof.
  intros Hq Hm.
  assert (Hq' : q = 1 \/ q = 2 \/ q = 3 \/ q = 4 \/ q = 5 \/ q = 6 \/ q = 7 \/
                q = 8 \/ q = 9) by lia.
  assert (Hm' : m = 0 \/ m = 1 \/ m = 2 \/ m = 3 \/ m = 4 \/ m = 5 \/ m = 6 \/
                m = 7 \/ m = 8 \/ m = 9) by lia.
  clear Hq Hm. unfold Py.render_chars.
  destruct ((decpt <=? -4) || (1 <? decpt)) eqn:Eexp.
  - assert (E1 : (decpt =? 1) = false).
    { apply Z.eqb_neq. intros ->. discriminate Eexp. }
    rewrite E1.
    destruct Hq' as [-> | [-> | [-> | [-> | [-> | [-> | [-> | [-> | ->]]]]]]]];
      destruct Hm'
        as [-> | [-> | [-> | [-> | [-> | [-> | [-> | [-> | [-> | ->]]]]]]]]];
      reflexivity.
  - destruct (decpt =? 1) eqn:E1.
    + destruct Hq' as [-> | [-> | [-> | [-> | [-> | [-> | [-> | [-> | ->]]]]]]]];
        destruct Hm'
          as [-> | [-> | [-> | [-> | [-> | [-> | [-> | [-> | [-> | ->]]]]]]]]];
        reflexivity.
    + rewrite significant_digits_zeros.
      destruct Hq' as [-> | [-> | [-> | [-> | [-> | [-> | [-> | [-> | ->]]]]]]]];
        destruct Hm'
          as [-> | [-> | [-> | [-> | [-> | [-> | [-> | [-> | [-> | ->]]]]]]]]];
        reflexivity.
Qed.

Lemma significant_digits_render (r decpt : Z) :
  10 <= r <= 99 ->
  significant_digits (Py.render r decpt) =
  if (r mod 10 =? 0) && negb (decpt =? 1) then 1%nat else 2%nat.
Proof.
  intros Hr. unfold Py.render. apply significant_digits_render_chars.
  - split; [apply Z.div_le_lower_bound | apply Z.lt_succ_r, Z.div_lt_upper_bound];
      lia.
  - pose proof (Z.mod_pos_bound r 10). lia.
Qed.

Lemma gt_zero_inv (x : Py.binary64) :
  Py.gt x zero = true ->
  x = S754_infinity false \/ exists m e, x = S754_finite false m e.
Proof.
  destruct x as [s | s | | s m e]; try discriminate.
  - destruct s; [discriminate | left; reflexivity].
  - destruct s; [discriminate |]. intros _. right. exists m, e. reflexivity.
Qed.

Lemma format_2_finite (m : positive) (e : Z) :
  exists r decpt,
    10 <= r <= 99 /\
    within_half_unit (fst (Py.fraction_of m e)) (snd (Py.fraction_of m e))
      r decpt /\
    Py.format_2 (S754_finite false m e) = Py.render r decpt.
Proof.
  destruct (fraction_of_pos m e) as [Hn Hd].
  pose proof (two_digits_range _ _ Hn Hd) as Hr.
  pose proof (two_digits_within_half_unit _ _ Hn Hd) as Hnear.
  unfold Py.format_2.
  destruct (Py.fraction_of m e) as [n d]. cbn [fst snd] in *.
  destruct (Py.two_digits n d) as [r decpt]. cbn [fst snd] in Hr, Hnear.
  exists r, decpt. repeat split; try lia. exact Hnear.
Qed.

(** ** The files that a run reads *)

Lemma list_comprehension_ext {A B : Type} (f g : A -> result B) (l : list A) :
  (forall x, In x l -> f x = g x) ->
  list_comprehension f l = list_comprehension g l.
Proof.
  induction l as [| x l IH]; simpl; intros H; [reflexivity |].
  rewrite (H x (or_introl eq_refl)), IH; [reflexivity |].
  intros y Hy. apply H. right. exact Hy.
Qed.

Lemma into_dict_ext (fs1 fs2 : filesystem) (file_name : string) :
  fs1 file_name = fs2 file_name ->
  into_dict fs1 file_name = into_dict fs2 file_name.
Proof.
  intros H. unfold into_dict, open_readlines. rewrite H. reflexivity.
Qed.

(** * The claims *)

(** C1: for every item [(dir, size)] of the newer report, in the order of
    its items, the script computes [growth = size - older.get(dir, 0)] and
    prints the line of [(dir, growth)] if and only if [growth > 0]; a new-only
    directory [y] of size 3 gives the line [y 3.0], and a directory that
    shrank or kept its size gives no line. *)
Theorem C1_growth_emitted_iff_positive :
  (forall (fs : filesystem) (prog old new : string) (older newer : SizeReport),
      into_dict fs old = Ok older ->
      into_dict fs new = Ok newer ->
      stdout (script fs [prog; old; new]) =
        map (fun entry => output_line (fst entry) (snd entry))
          (filter (fun entry => Py.gt (snd entry) zero)
             (map (fun item =>
                     (fst item,
                      Py.sub (snd item) (Py.get older (fst item) zero)))
                (Py.items newer)))
      /\ (forall dir growth,
             In (dir, growth) (growth_entries older newer) <->
             exists size,
               In (dir, size) (Py.items newer) /\
               growth = Py.sub size (Py.get older dir zero) /\
               Py.gt growth zero = true))
  /\ stdout (script (two_reports "" (lines_text ["y 3"]))
               ["find_growth_directories.py"; "old"; "new"]) = ["y 3.0"]
  /\ stdout (script (two_reports (lines_text ["x 10"; "w 4"])
                       (lines_text ["x 8"; "w 4"]))
               ["find_growth_directories.py"; "old"; "new"]) = [].
Proof.
  split; [| split; vm_compute; reflexivity].
  intros fs prog old new older newer Hold Hnew. split.
  - exact (script_stdout fs prog old new older newer Hold Hnew).
  - intros dir growth. apply growth_entries_In.
Qed.

Lemma C1_growth_witness :
  stdout (script (two_reports (lines_text ["x 10"; "w 4"; "v 9"])
                    (lines_text ["x 15"; "w 4"; "y 3"; "v 2.5"]))
            ["find_growth_directories.py"; "old"; "new"]) =
  map (fun entry => output_line (fst entry) (snd entry))
    (filter (fun entry => Py.gt (snd entry) zero)
       (map (fun item =>
               (fst item,
                Py.sub (snd item)
                  (Py.get [("x", Py.float_of_int 10); ("w", Py.float_of_int 4);
                           ("v", Py.float_of_int 9)]
                     (fst item) zero)))
          (Py.items [("x", Py.float_of_int 15); ("w", Py.float_of_int 4);
                     ("y", Py.float_of_int 3);
                     ("v", Py.float_of_decimal false 25 (-1))]))).
Proof.
  refine (proj1 (proj1 C1_growth_emitted_iff_positive
                   (two_reports (lines_text ["x 10"; "w 4"; "v 9"])
                      (lines_text ["x 15"; "w 4"; "y 3"; "v 2.5"]))
                   "find_growth_directories.py" "old" "new" _ _ _ _)).
  - vm_compute. reflexivity.
  - vm_compute. reflexivity.
Defined.

(** C4: no line is printed for a directory that is a key of the older
    report and not a key of the newer one: every printed line is the line of
    a growth entry, and no growth entry has such a directory; with the old
    report [z 5] and an empty new report nothing is printed. *)
Theorem C4_old_only_never_emitted :
  (forall (fs : filesystem) (prog old new : string) (older newer : SizeReport),
      into_dict fs old = Ok older ->
      into_dict fs new = Ok newer ->
      stdout (script fs [prog; old; new]) =
        map entry_line (growth_entries older newer)
      /\ (forall dir,
             In dir (Py.keys older) -> ~ In dir (Py.keys newer) ->
             ~ In dir (map fst (growth_entries older newer))))
  /\ stdout (script (two_reports (lines_text ["z 5"]) "")
               ["find_growth_directories.py"; "old"; "new"]) = [].
Proof.
  split.
  - intros fs prog old new older newer Hold Hnew. split.
    + exact (script_stdout fs prog old new older newer Hold Hnew).
    + intros dir _ Hnew_absent Hin. apply Hnew_absent.
      apply in_map_iff in Hin. destruct Hin as [[dir' growth] [Hdir Hin]].
      simpl in Hdir. subst dir'.
      apply growth_entries_In in Hin. destruct Hin as [size [Hin _]].
      apply (in_map fst) in Hin. exact Hin.
  - vm_compute. reflexivity.
Qed.

Lemma C4_old_only_witness :
  stdout (script (two_reports (lines_text ["z 5"; "x 1"])
                    (lines_text ["x 4"]))
            ["find_growth_directories.py"; "old"; "new"]) =
    map entry_line
      (growth_entries [("z", Py.float_of_int 5); ("x", Py.float_of_int 1)]
                      [("x", Py.float_of_int 4)])
  /\ ~ In "z"
       (map fst
          (growth_entries [("z", Py.float_of_int 5); ("x", Py.float_of_int 1)]
                          [("x", Py.float_of_int 4)])).
Proof.
  destruct (proj1 C4_old_only_never_emitted
              (two_reports (lines_text ["z 5"; "x 1"]) (lines_text ["x 4"]))
              "find_growth_directories.py" "old" "new"
              [("z", Py.float_of_int 5); ("x", Py.float_of_int 1)]
              [("x", Py.float_of_int 4)])
    as [Hout Habsent].
  - vm_compute. reflexivity.
  - vm_compute. reflexivity.
  - split; [exact Hout |]. apply Habsent.
    + simpl. left. reflexivity.
    + simpl. intros [H | []]. discriminate H.
Defined.

(** C5: when the number of arguments after the program name is not two, the
    script writes [expected two file arguments: old new] and a line end to
    the error stream, prints nothing and exits with code 1; with two
    arguments and two reports that parse, the exit code is 0. *)
Theorem C5_argument_count :
  (forall (fs : filesystem) (prog : string) (args : list string),
      List.length args <> 2%nat ->
      stderr (script fs (prog :: args)) =
        "expected two file arguments: old new" ++ String Py.LF ""
      /\ status (script fs (prog :: args)) = Exited 1
      /\ exit_code (status (script fs (prog :: args))) = 1
      /\ stdout (script fs (prog :: args)) = [])
  /\ (forall (fs : filesystem) (prog old new : string) (older newer : SizeReport),
         into_dict fs old = Ok older ->
         into_dict fs new = Ok newer ->
         stderr (script fs [prog; old; new]) = ""
         /\ exit_code (status (script fs [prog; old; new])) = 0).
Proof.
  split.
  - intros fs prog args Hlen. unfold script.
    destruct (negb (List.length (prog :: args) =? 3)%nat) eqn:E.
    + repeat split.
    + apply negb_false_iff in E. apply Nat.eqb_eq in E. simpl in E.
      exfalso. apply Hlen. lia.
  - intros fs prog old new older newer Hold Hnew.
    rewrite script_two_arguments, Hold, Hnew. split; reflexivity.
Qed.

Lemma C5_argument_count_witness :
  (stderr (script (two_reports "" "") ["find_growth_directories.py"; "old"]) =
     "expected two file arguments: old new" ++ String Py.LF ""
   /\ exit_code
        (status (script (two_reports "" "")
                   ["find_growth_directories.py"; "old"])) = 1
   /\ stdout (script (two_reports "" "")
                ["find_growth_directories.py"; "old"]) = [])
  /\ exit_code
       (status (script (two_reports (lines_text ["x 10"]) (lines_text ["x 15"]))
                  ["find_growth_directories.py"; "old"; "new"])) = 0.
Proof.
  split.
  - destruct (proj1 C5_argument_count (two_reports "" "")
                "find_growth_directories.py" ["old"]) as [H1 [_ [H2 H3]]].
    + simpl. lia.
    + repeat split; assumption.
  - refine (proj2 (proj2 C5_argument_count
                     (two_reports (lines_text ["x 10"]) (lines_text ["x 15"]))
                     "find_growth_directories.py" "old" "new"
                     [("x", Py.float_of_int 10)] [("x", Py.float_of_int 15)]
                     _ _)).
    + vm_compute. reflexivity.
    + vm_compute. reflexivity.
Defined.

(** C6: when a report cannot be read, or the last token of one of the lines
    of a report is not a float literal, the run ends with an exception that
    nothing catches, exit code 1, and has printed nothing; a run that prints
    a line has parsed both reports in full. *)
Theorem C6_no_partial_output :
  forall (fs : filesystem) (prog old new : string),
    (unparseable fs old \/ unparseable fs new ->
     stdout (script fs [prog; old; new]) = []
     /\ (exists e, status (script fs [prog; old; new]) = Uncaught e)
     /\ exit_code (status (script fs [prog; old; new])) = 1)
    /\ (stdout (script fs [prog; old; new]) <> [] ->
        exists older newer,
          into_dict fs old = Ok older /\ into_dict fs new = Ok newer).
Proof.
  intros fs prog old new. split.
  - intros H. apply script_raises.
    destruct H as [H | H]; [left | right]; exact (unparseable_raises _ _ H).
  - intros Hout. rewrite script_two_arguments in Hout.
    destruct (into_dict fs old) as [older | e];
      [| exfalso; apply Hout; reflexivity].
    destruct (into_dict fs new) as [newer | e];
      [| exfalso; apply Hout; reflexivity].
    exists older, newer. split; reflexivity.
Qed.

Lemma C6_no_partial_output_witness :
  stdout (script (two_reports (lines_text ["x 10"])
                    (lines_text ["x 15"; "y big"; "w 7"]))
            ["find_growth_directories.py"; "old"; "new"]) = []
  /\ exit_code
       (status (script (two_reports (lines_text ["x 10"])
                          (lines_text ["x 15"; "y big"; "w 7"]))
                  ["find_growth_directories.py"; "old"; "new"])) = 1.
Proof.
  destruct (proj1 (C6_no_partial_output
                     (two_reports (lines_text ["x 10"])
                        (lines_text ["x 15"; "y big"; "w 7"]))
                     "find_growth_directories.py" "old" "new"))
    as [Hout [_ Hcode]].
  - right. right.
    exists (lines_text ["x 15"; "y big"; "w 7"]), ("y big" ++ String Py.LF ""),
      ["y"], "big".
    split; [reflexivity |]. split; [vm_compute; tauto |].
    split; reflexivity.
  - split; assumption.
Defined.

(** C2: a line whose tokens are [t1 .. tn], with [n >= 2], gives the key
    [t1 .. t(n-1)] joined by single spaces and the value [float(tn)], and a
    report that parses maps that key to that value (unless a later line has
    the same key); a run of whitespace in the path counts as one space; the
    line [my dir 10] gives the key [my dir] and the value 10. *)
Theorem C2_key_and_value_of_line :
  (forall (line : string) (tokens : list string) (t : string) (v : Py.binary64),
      Py.split line = (tokens ++ [t])%list -> tokens <> [] ->
      Py.float t = Ok v ->
      item_of_tokens (Py.split line) = Ok (Py.join " " tokens, v))
  /\ (forall (fs : filesystem) (file_name content : string) (d : SizeReport)
             (before after : list string) (line : string)
             (tokens : list string) (t : string),
         fs file_name = Some content ->
         into_dict fs file_name = Ok d ->
         Py.readlines content = (before ++ line :: after)%list ->
         Py.split line = (tokens ++ [t])%list -> tokens <> [] ->
         exists v,
           Py.float t = Ok v /\
           (~ In (Py.join " " tokens) (map key_of_line after) ->
            In (Py.join " " tokens, v) (Py.items d) /\
            forall default, Py.get d (Py.join " " tokens) default = v))
  /\ (forall a ws b : string,
         ws <> "" -> all_space ws = true ->
         Py.split (a ++ ws ++ b) = Py.split (a ++ " " ++ b) /\
         key_of_line (a ++ ws ++ b) = key_of_line (a ++ " " ++ b))
  /\ item_of_tokens (Py.split "my dir 10") = Ok ("my dir", Py.float_of_int 10)
  /\ into_dict (two_reports "" (lines_text ["my dir 10"])) "new" =
       Ok [("my dir", Py.float_of_int 10)].
Proof.
  split; [| split; [| split; [| split]]].
  - intros line tokens t v Hsplit _ Hfloat. unfold item_of_tokens.
    rewrite Hsplit, item_last_snoc. simpl. rewrite Hfloat. simpl.
    unfold Py.but_last. rewrite removelast_last. reflexivity.
  - intros fs file_name content d before after line tokens t
      Hfs Hd Hlines Hsplit _.
    destruct (parsed_line_stored fs file_name content d before after line
                Hfs Hd Hlines) as [t' [v [Ht' [Hv [_ Hstored]]]]].
    assert (Hkey : key_of_line line = Py.join " " tokens).
    { unfold key_of_line, Py.but_last. rewrite Hsplit, removelast_last.
      reflexivity. }
    rewrite Hsplit, item_last_snoc in Ht'. inversion Ht'; subst t'.
    rewrite Hkey in Hstored.
    exists v. split; [exact Hv |]. intros Hlater.
    specialize (Hstored Hlater). split.
    + apply find_item_Some_In. exact Hstored.
    + intros default. rewrite get_find_item, Hstored. reflexivity.
  - intros a ws b Hne Hws.
    assert (H : Py.split (a ++ ws ++ b) = Py.split (a ++ " " ++ b))
      by (apply split_from_collapse; assumption).
    split; [exact H |]. unfold key_of_line. rewrite H. reflexivity.
  - vm_compute. reflexivity.
  - vm_compute. reflexivity.
Qed.

Lemma C2_key_and_value_witness :
  item_of_tokens (Py.split ("usr  local" ++ String "009" "share 12.5")) =
    Ok (Py.join " " ["usr"; "local"; "share"], Py.float_of_decimal false 125 (-1)).
Proof.
  refine (proj1 C2_key_and_value_of_line
            ("usr  local" ++ String "009" "share 12.5")
            ["usr"; "local"; "share"] "12.5" _ _ _ _).
  - vm_compute. reflexivity.
  - discriminate.
  - vm_compute. reflexivity.
Defined.

(** C7: a line of exactly one token gives the empty key and the value of
    that token; the line raises no [IndexError], and a report that parses
    maps the empty key to that value (unless a later line has the empty key
    too). *)
Theorem C7_single_token_line :
  forall (line t : string),
    Py.split line = [t] ->
    (forall v, Py.float t = Ok v ->
               item_of_tokens (Py.split line) = Ok ("", v))
    /\ item_of_tokens (Py.split line) <> Raise IndexError
    /\ (forall (fs : filesystem) (file_name content : string) (d : SizeReport)
               (before after : list string),
           fs file_name = Some content ->
           into_dict fs file_name = Ok d ->
           Py.readlines content = (before ++ line :: after)%list ->
           exists v,
             Py.float t = Ok v /\
             (~ In "" (map key_of_line after) ->
              In ("", v) (Py.items d) /\ forall default, Py.get d "" default = v)).
Proof.
  intros line t Hsplit.
  assert (Hkey : key_of_line line = "").
  { unfold key_of_line. rewrite Hsplit. reflexivity. }
  split; [| split].
  - intros v Hfloat. unfold item_of_tokens. rewrite Hsplit. simpl.
    rewrite Hfloat. reflexivity.
  - unfold item_of_tokens. rewrite Hsplit. simpl.
    destruct (Py.float t) as [v | e] eqn:Ef; simpl; [discriminate |].
    rewrite (float_raises _ _ Ef). discriminate.
  - intros fs file_name content d before after Hfs Hd Hlines.
    destruct (parsed_line_stored fs file_name content d before after line
                Hfs Hd Hlines) as [t' [v [Ht' [Hv [_ Hstored]]]]].
    rewrite Hsplit in Ht'. simpl in Ht'. inversion Ht'; subst t'.
    rewrite Hkey in Hstored.
    exists v. split; [exact Hv |]. intros Hlater.
    specialize (Hstored Hlater). split.
    + apply find_item_Some_In. exact Hstored.
    + intros default. rewrite get_find_item, Hstored. reflexivity.
Qed.

Lemma C7_single_token_witness :
  item_of_tokens (Py.split (" 7" ++ String Py.LF "")) = Ok ("", Py.float_of_int 7)
  /\ into_dict (two_reports "" (lines_text ["x 1"; " 7"])) "new" =
       Ok [("x", Py.float_of_int 1); ("", Py.float_of_int 7)].
Proof.
  split.
  - refine (proj1 (C7_single_token_line (" 7" ++ String Py.LF "") "7" _) _ _).
    + vm_compute. reflexivity.
    + vm_compute. reflexivity.
  - vm_compute. reflexivity.
Defined.

(** C8: a report with a line of no token does not parse: on that line the
    last element of an empty list is taken, which raises [IndexError] (the
    exception of the report when the lines before it parse), and a run on
    such a report prints nothing and ends with exit code 1. *)
Theorem C8_empty_line_fails :
  forall (fs : filesystem) (file_name content : string)
         (before after : list string) (line : string),
    fs file_name = Some content ->
    Py.readlines content = (before ++ line :: after)%list ->
    Py.split line = [] ->
    item_of_tokens (Py.split line) = Raise IndexError
    /\ (exists e, into_dict fs file_name = Raise e)
    /\ ((forall l, In l before -> exists kv, item_of_tokens (Py.split l) = Ok kv) ->
        into_dict fs file_name = Raise IndexError)
    /\ (forall prog other : string,
           (stdout (script fs [prog; file_name; other]) = [] /\
            exit_code (status (script fs [prog; file_name; other])) = 1)
           /\ (stdout (script fs [prog; other; file_name]) = [] /\
               exit_code (status (script fs [prog; other; file_name])) = 1)).
Proof.
  intros fs file_name content before after line Hfs Hlines Hsplit.
  assert (Hline : item_of_tokens (Py.split line) = Raise IndexError).
  { rewrite Hsplit. reflexivity. }
  assert (Hraise : exists e, into_dict fs file_name = Raise e).
  { apply (line_raises_into_dict fs file_name content line IndexError Hfs);
      [| exact Hline].
    rewrite Hlines. apply in_or_app. right. left. reflexivity. }
  split; [exact Hline |]. split; [exact Hraise |]. split.
  - intros Hbefore. rewrite (into_dict_items _ _ _ Hfs). unfold line_items.
    rewrite Hlines, map_app. simpl.
    rewrite (list_comprehension_first_raise item_of_tokens
               (map Py.split before) (map Py.split after) (Py.split line)
               IndexError); [reflexivity | | exact Hline].
    intros s Hs. apply in_map_iff in Hs. destruct Hs as [l [<- Hl]].
    exact (Hbefore l Hl).
  - intros prog other. split.
    + destruct (script_raises fs prog file_name other (or_introl Hraise))
        as [Hout [_ Hcode]]. split; assumption.
    + destruct (script_raises fs prog other file_name (or_intror Hraise))
        as [Hout [_ Hcode]]. split; assumption.
Qed.

Lemma C8_empty_line_witness :
  into_dict (two_reports (lines_text ["x 10"; "  "; "y 2"]) (lines_text ["x 15"]))
    "old" = Raise IndexError
  /\ stdout (script (two_reports (lines_text ["x 10"; "  "; "y 2"])
                       (lines_text ["x 15"]))
               ["find_growth_directories.py"; "old"; "new"]) = [].
Proof.
  destruct (C8_empty_line_fails
              (two_reports (lines_text ["x 10"; "  "; "y 2"]) (lines_text ["x 15"]))
              "old" (lines_text ["x 10"; "  "; "y 2"])
              ["x 10" ++ String Py.LF ""] ["y 2" ++ String Py.LF ""]
              ("  " ++ String Py.LF ""))
    as [_ [_ [Hfirst Hrun]]].
  - reflexivity.
  - vm_compute. reflexivity.
  - vm_compute. reflexivity.
  - split.
    + apply Hfirst. intros l [<- | []].
      exists ("x", Py.float_of_int 10). vm_compute. reflexivity.
    + exact (proj1 (proj1 (Hrun "find_growth_directories.py" "new"))).
Defined.

(** C9: a report that parses has one entry per key, and the value of a key
    is the value of the last line with that key, in the order of the file. *)
Theorem C9_duplicate_keys_last_wins :
  (forall (fs : filesystem) (file_name : string) (d : SizeReport),
      into_dict fs file_name = Ok d ->
      exists content kvs,
        fs file_name = Some content
        /\ Forall2 (fun line kv => item_of_tokens (Py.split line) = Ok kv)
             (Py.readlines content) kvs
        /\ NoDup (Py.keys d)
        /\ (forall k, In k (map fst kvs) -> exists v, In (k, v) (Py.items d))
        /\ (forall k v, In (k, v) (Py.items d) <-> last_value kvs k = Some v))
  /\ into_dict (two_reports "" (lines_text ["a 1"; "b 2"; "a 3"])) "new" =
       Ok [("a", Py.float_of_int 3); ("b", Py.float_of_int 2)].
Proof.
  split; [| vm_compute; reflexivity].
  intros fs file_name d Hd.
  destruct (into_dict_ok fs file_name d Hd) as [content [kvs [Hfs [Hkvs ->]]]].
  assert (Hnd : NoDup (Py.keys (store_items [] kvs)))
    by (apply NoDup_keys_store; constructor).
  assert (Hlast : forall k v,
             In (k, v) (Py.items (store_items [] kvs)) <->
             last_value kvs k = Some v).
  { intros k v. rewrite (find_item_In _ k v Hnd), find_item_store. simpl.
    destruct (last_value kvs k); split; intros H; try exact H; discriminate H. }
  exists content, kvs. split; [exact Hfs |]. split.
  - apply (Forall2_map_split (fun s kv => item_of_tokens s = Ok kv)).
    apply list_comprehension_Forall2. exact Hkvs.
  - split; [exact Hnd |]. split; [| exact Hlast].
    intros k Hk. destruct (last_value_present kvs k Hk) as [v Hv].
    exists v. apply Hlast. exact Hv.
Qed.

Lemma C9_duplicate_keys_witness :
  exists content kvs,
    two_reports "" (lines_text ["a 1"; "b 2"; "a 3"]) "new" = Some content
    /\ Forall2 (fun line kv => item_of_tokens (Py.split line) = Ok kv)
         (Py.readlines content) kvs
    /\ NoDup (Py.keys [("a", Py.float_of_int 3); ("b", Py.float_of_int 2)])
    /\ (forall k, In k (map fst kvs) ->
                  exists v, In (k, v)
                              (Py.items [("a", Py.float_of_int 3);
                                         ("b", Py.float_of_int 2)]))
    /\ (forall k v,
           In (k, v) (Py.items [("a", Py.float_of_int 3); ("b", Py.float_of_int 2)])
           <-> last_value kvs k = Some v).
Proof.
  refine (proj1 C9_duplicate_keys_last_wins
            (two_reports "" (lines_text ["a 1"; "b 2"; "a 3"])) "new"
            [("a", Py.float_of_int 3); ("b", Py.float_of_int 2)] _).
  vm_compute. reflexivity.
Defined.

(** C10, as the code has it: the run is a function of the arguments and of
    the texts of the files that the last two arguments name; the keys of a
    parsed report are the keys of its lines, each at its first occurrence,
    and the lines are printed in that order of the newer report. *)
Theorem C10_deterministic_first_occurrence_order :
  (forall (fs1 fs2 : filesystem) (argv : list string),
      (forall file_name, In file_name (Py.last_two argv) ->
                         fs1 file_name = fs2 file_name) ->
      script fs1 argv = script fs2 argv)
  /\ (forall (fs : filesystem) (prog old new content : string)
             (older newer : SizeReport),
         into_dict fs old = Ok older ->
         fs new = Some content ->
         into_dict fs new = Ok newer ->
         Py.keys newer =
           first_occurrences [] (map key_of_line (Py.readlines content))
         /\ stdout (script fs [prog; old; new]) =
              map entry_line
                (filter (fun entry => Py.gt (snd entry) zero)
                   (map (growth_of older) (Py.items newer)))).
Proof.
  split.
  - intros fs1 fs2 argv Hsame. unfold script.
    destruct (negb (List.length argv =? 3)%nat); [reflexivity |].
    rewrite (list_comprehension_ext (into_dict fs1) (into_dict fs2));
      [reflexivity |].
    intros file_name Hin. apply into_dict_ext, Hsame, Hin.
  - intros fs prog old new content older newer Hold Hfs Hnew. split.
    + rewrite (into_dict_items _ _ _ Hfs) in Hnew.
      apply bind_ok in Hnew. destruct Hnew as [kvs [Hkvs Hd]].
      inversion Hd; subst newer. rewrite keys_store. simpl.
      rewrite (Forall2_keys (Py.readlines content) kvs); [reflexivity |].
      apply list_comprehension_Forall2. exact Hkvs.
    + exact (script_stdout fs prog old new older newer Hold Hnew).
Qed.

Lemma C10_deterministic_witness :
  script (two_reports (lines_text ["x 10"]) (lines_text ["x 15"; "y 1"]))
    ["find_growth_directories.py"; "old"; "new"] =
  script (fun file_name =>
            if String.eqb file_name "other" then Some "z 1"
            else two_reports (lines_text ["x 10"]) (lines_text ["x 15"; "y 1"])
                   file_name)
    ["find_growth_directories.py"; "old"; "new"].
Proof.
  refine (proj1 C10_deterministic_first_occurrence_order _ _ _ _).
  intros file_name Hin. vm_compute in Hin.
  destruct Hin as [<- | [<- | []]]; reflexivity.
Defined.

(** C10, as the claim states it, fails: with the lines [a 1], [b 2], [a 3]
    in the newer report, the last occurrences of the keys are in the order
    [b], [a], and the lines are printed in the order [a], [b]. *)
Lemma C10_last_occurrence_order_counterexample :
  stdout (script (two_reports "" (lines_text ["a 1"; "b 2"; "a 3"]))
            ["find_growth_directories.py"; "old"; "new"]) = ["a 3.0"; "b 2.0"]
  /\ last_occurrences
       (map key_of_line (Py.readlines (lines_text ["a 1"; "b 2"; "a 3"]))) =
       ["b"; "a"]
  /\ map entry_line
       (growth_entries []
          [("b", Py.float_of_int 2); ("a", Py.float_of_int 3)]) =
       ["b 2.0"; "a 3.0"]
  /\ stdout (script (two_reports "" (lines_text ["a 1"; "b 2"; "a 3"]))
               ["find_growth_directories.py"; "old"; "new"]) <>
     map entry_line
       (growth_entries []
          [("b", Py.float_of_int 2); ("a", Py.float_of_int 3)]).
Proof.
  repeat split; try (vm_compute; reflexivity).
  vm_compute. discriminate.
Qed.

(** * Further properties of the script *)

(** ** Floats: subtraction and the test [> 0] *)

Lemma sub_zero_r (x : Py.binary64) : Py.sub x zero = x.
Proof.
  destruct x as [s | s | | s m e]; try reflexivity.
  destruct s; reflexivity.
Qed.

Lemma sub_self_not_positive (x : Py.binary64) : Py.gt (Py.sub x x) zero = false.
Proof.
  destruct x as [s | s | | s m e]; try (destruct s; reflexivity); try reflexivity.
  unfold Py.sub, SFsub. rewrite Z.sub_diag. reflexivity.
Qed.

Lemma binary_round_aux_negative (m e : Z) (l : location) :
  Py.gt (binary_round_aux Py.prec Py.emax true m e l) zero = false.
Proof.
  unfold binary_round_aux.
  destruct (shr_fexp Py.prec Py.emax m e l) as [mrs' e'].
  destruct (shr_fexp Py.prec Py.emax
              (round_nearest_even (shr_m mrs') (loc_of_shr_record mrs')) e'
              loc_Exact) as [mrs'' e''].
  destruct (shr_m mrs'') as [| p | p]; try reflexivity.
  destruct (e'' <=? Py.emax - Py.prec); reflexivity.
Qed.

Lemma binary_round_negative (m : positive) (e : Z) :
  Py.gt (binary_round Py.prec Py.emax true m e) zero = false.
Proof.
  unfold binary_round.
  destruct (shl_align m e (fexp Py.prec Py.emax (Z.pos (digits2_pos m) + e)))
    as [mz ez].
  apply binary_round_aux_negative.
Qed.

Lemma binary_normalize_opp_not_positive (z e : Z) :
  Py.gt (binary_normalize Py.prec Py.emax z e false) zero = true ->
  Py.gt (binary_normalize Py.prec Py.emax (- z) e false) zero = false.
Proof.
  destruct z as [| p | p]; cbn [binary_normalize Z.opp].
  - discriminate.
  - intros _. apply binary_round_negative.
  - rewrite binary_round_negative. discriminate.
Qed.

(** A difference and the opposite difference are not both above zero. *)
Lemma sub_antisymmetric (x y : Py.binary64) :
  Py.gt (Py.sub x y) zero = true -> Py.gt (Py.sub y x) zero = false.
Proof.
  destruct x as [sx | sx | | sx mx ex]; destruct y as [sy | sy | | sy my ey];
    try (destruct sx; destruct sy; (discriminate || reflexivity));
    try (destruct sx; (discriminate || reflexivity));
    try (destruct sy; (discriminate || reflexivity));
    try reflexivity; try discriminate.
  unfold Py.sub, SFsub. rewrite (Z.min_comm ey ex).
  set (ez := Z.min ex ey).
  set (a := cond_Zopp sx (Z.pos (fst (shl_align mx ex ez)))).
  set (b := cond_Zopp sy (Z.pos (fst (shl_align my ey ez)))).
  replace (b - a) with (- (a - b)) by lia.
  apply binary_normalize_opp_not_positive.
Qed.

Lemma sub_nan_not_positive (x : Py.binary64) :
  Py.gt (Py.sub S754_nan x) zero = false /\
  Py.gt (Py.sub x S754_nan) zero = false.
Proof.
  destruct x as [s | s | | s m e]; split; reflexivity.
Qed.

(** ** Looking up the items of a report *)

Lemma get_of_item {V : Type} (d : Py.dict V) (k : string) (v default : V) :
  NoDup (Py.keys d) -> In (k, v) (Py.items d) -> Py.get d k default = v.
Proof.
  intros Hnd Hin. rewrite get_find_item.
  apply (find_item_In d k v Hnd) in Hin. rewrite Hin. reflexivity.
Qed.

Lemma get_absent {V : Type} (d : Py.dict V) (k : string) (default : V) :
  ~ In k (Py.keys d) -> Py.get d k default = default.
Proof.
  unfold Py.keys. induction d as [| [k0 v0] d IH]; simpl; intros H.
  - reflexivity.
  - destruct (String.eqb k0 k) eqn:E.
    + apply String.eqb_eq in E. tauto.
    + apply IH. tauto.
Qed.

Lemma into_dict_NoDup (fs : filesystem) (file_name : string) (d : SizeReport) :
  into_dict fs file_name = Ok d -> NoDup (Py.keys d).
Proof.
  intros H. destruct (into_dict_ok fs file_name d H) as [content [kvs [_ [_ ->]]]].
  apply NoDup_keys_store. constructor.
Qed.

Lemma item_unique {V : Type} (d : Py.dict V) (k : string) (v v' : V) :
  NoDup (Py.keys d) -> In (k, v) (Py.items d) -> In (k, v') (Py.items d) ->
  v = v'.
Proof.
  intros Hnd H H'.
  apply (find_item_In d k v Hnd) in H. apply (find_item_In d k v' Hnd) in H'.
  congruence.
Qed.

Lemma growth_entries_dir (older newer : SizeReport) (dir : string) :
  NoDup (Py.keys newer) ->
  In dir (map fst (growth_entries older newer)) ->
  exists size,
    In (dir, size) (Py.items newer) /\
    Py.get newer dir zero = size /\
    Py.gt (Py.sub size (Py.get older dir zero)) zero = true.
Proof.
  intros Hnd Hin. apply in_map_iff in Hin.
  destruct Hin as [[dir' growth] [Hdir Hin]]. simpl in Hdir. subst dir'.
  apply growth_entries_In in Hin. destruct Hin as [size [Hin [-> Hgt]]].
  exists size. split; [exact Hin |]. split; [| exact Hgt].
  apply get_of_item; assumption.
Qed.

Lemma growth_entries_same (d : SizeReport) :
  NoDup (Py.keys d) -> growth_entries d d = [].
Proof.
  intros Hnd. destruct (growth_entries d d) as [| [dir growth] rest] eqn:E;
    [reflexivity | exfalso].
  assert (Hin : In (dir, growth) (growth_entries d d))
    by (rewrite E; left; reflexivity).
  apply growth_entries_In in Hin. destruct Hin as [size [Hin [-> Hgt]]].
  rewrite (get_of_item d dir size zero Hnd Hin) in Hgt.
  rewrite sub_self_not_positive in Hgt. discriminate Hgt.
Qed.

(** X1: a report compared with itself gives no line, whatever the report
    is: the growth of each directory is then a zero or a NaN, and a report
    that does not parse ends the run before the loop. *)
Theorem X1_same_report_prints_nothing :
  forall (fs : filesystem) (prog file_name : string),
    stdout (script fs [prog; file_name; file_name]) = [].
Proof.
  intros fs prog file_name. rewrite script_two_arguments.
  destruct (into_dict fs file_name) as [d | e] eqn:E; [| reflexivity].
  cbn [stdout]. rewrite main_loop_entries.
  change (map entry_line (growth_entries d d) = []).
  rewrite (growth_entries_same d (into_dict_NoDup _ _ _ E)). reflexivity.
Qed.

(** X2: no directory grows in both directions: a directory that has a line
    when the report [a] is the older one and [b] the newer one has no line
    when the two reports are exchanged. *)
Theorem X2_no_growth_in_both_directions :
  forall (fs : filesystem) (prog a b : string) (da db : SizeReport),
    into_dict fs a = Ok da ->
    into_dict fs b = Ok db ->
    stdout (script fs [prog; a; b]) = map entry_line (growth_entries da db)
    /\ stdout (script fs [prog; b; a]) = map entry_line (growth_entries db da)
    /\ (forall dir,
           In dir (map fst (growth_entries da db)) ->
           ~ In dir (map fst (growth_entries db da))).
Proof.
  intros fs prog a b da db Ha Hb.
  split; [exact (script_stdout fs prog a b da db Ha Hb) |].
  split; [exact (script_stdout fs prog b a db da Hb Ha) |].
  intros dir Hab Hba.
  destruct (growth_entries_dir da db dir (into_dict_NoDup _ _ _ Hb) Hab)
    as [sb [_ [Hgb Hpos]]].
  destruct (growth_entries_dir db da dir (into_dict_NoDup _ _ _ Ha) Hba)
    as [sa [_ [Hga Hneg]]].
  rewrite Hga in Hpos. rewrite Hgb in Hneg.
  rewrite (sub_antisymmetric sb sa Hpos) in Hneg. discriminate Hneg.
Qed.

Lemma X2_both_directions_witness :
  ~ In "x"
      (map fst
         (growth_entries [("x", Py.float_of_int 15); ("y", Py.float_of_int 1)]
                         [("x", Py.float_of_int 10); ("y", Py.float_of_int 2)]))
  /\ stdout (script (two_reports (lines_text ["x 10"; "y 2"])
                       (lines_text ["x 15"; "y 1"]))
               ["find_growth_directories.py"; "new"; "old"]) = ["y 1.0"].
Proof.
  destruct (X2_no_growth_in_both_directions
              (two_reports (lines_text ["x 10"; "y 2"]) (lines_text ["x 15"; "y 1"]))
              "find_growth_directories.py" "old" "new"
              [("x", Py.float_of_int 10); ("y", Py.float_of_int 2)]
              [("x", Py.float_of_int 15); ("y", Py.float_of_int 1)])
    as [_ [Hrev Hdir]].
  - vm_compute. reflexivity.
  - vm_compute. reflexivity.
  - split.
    + apply Hdir. vm_compute. left. reflexivity.
    + rewrite Hrev. vm_compute. reflexivity.
Defined.

(** X3: a directory of the newer report that the older report does not
    have is compared with 0: it has a growth entry exactly when its size is
    above zero, and the growth is then the size itself. *)
Theorem X3_new_only_directory :
  forall (fs : filesystem) (prog old new : string) (older newer : SizeReport)
         (dir : string) (size : Py.binary64),
    into_dict fs old = Ok older ->
    into_dict fs new = Ok newer ->
    In (dir, size) (Py.items newer) ->
    ~ In dir (Py.keys older) ->
    stdout (script fs [prog; old; new]) = map entry_line (growth_entries older newer)
    /\ (forall growth,
           In (dir, growth) (growth_entries older newer) <->
           growth = size /\ Py.gt size zero = true)
    /\ (Py.gt size zero = true ->
        In (output_line dir size) (stdout (script fs [prog; old; new]))).
Proof.
  intros fs prog old new older newer dir size Hold Hnew Hin Habsent.
  pose proof (script_stdout fs prog old new older newer Hold Hnew) as Hout.
  assert (Hiff : forall growth,
             In (dir, growth) (growth_entries older newer) <->
             growth = size /\ Py.gt size zero = true).
  { intros growth. rewrite growth_entries_In.
    rewrite (get_absent older dir zero Habsent). split.
    - intros [size' [Hin' [-> Hgt]]]. rewrite sub_zero_r in *.
      rewrite (item_unique newer dir size' size
                 (into_dict_NoDup _ _ _ Hnew) Hin' Hin) in *.
      split; [reflexivity | exact Hgt].
    - intros [-> Hgt]. exists size. rewrite sub_zero_r.
      repeat split; assumption. }
  split; [exact Hout |]. split; [exact Hiff |].
  intros Hgt. rewrite Hout.
  apply (in_map entry_line _ (dir, size)). apply Hiff. split; [reflexivity | exact Hgt].
Qed.

Lemma X3_new_only_witness :
  In (output_line "y" (Py.float_of_decimal false 25 (-1)))
     (stdout (script (two_reports (lines_text ["x 10"])
                        (lines_text ["x 15"; "y 2.5"; "w -3"]))
                ["find_growth_directories.py"; "old"; "new"])).
Proof.
  refine (proj2 (proj2 (X3_new_only_directory
            (two_reports (lines_text ["x 10"]) (lines_text ["x 15"; "y 2.5"; "w -3"]))
            "find_growth_directories.py" "old" "new"
            [("x", Py.float_of_int 10)]
            [("x", Py.float_of_int 15); ("y", Py.float_of_decimal false 25 (-1));
             ("w", Py.float_of_int (-3))]
            "y" (Py.float_of_decimal false 25 (-1)) _ _ _ _)) _).
  - vm_compute. reflexivity.
  - vm_compute. reflexivity.
  - right. left. reflexivity.
  - simpl. intros [H | []]. discriminate H.
  - vm_compute. reflexivity.
Defined.

(** X4: a directory whose size is a NaN in the newer report, or in the older
    one, has no line: [float] reads the token [nan], and no comparison with
    a NaN holds. *)
Theorem X4_nan_size_never_printed :
  forall (fs : filesystem) (prog old new : string) (older newer : SizeReport)
         (dir : string),
    into_dict fs old = Ok older ->
    into_dict fs new = Ok newer ->
    In (dir, S754_nan) (Py.items newer) \/ In (dir, S754_nan) (Py.items older) ->
    stdout (script fs [prog; old; new]) = map entry_line (growth_entries older newer)
    /\ ~ In dir (map fst (growth_entries older newer)).
Proof.
  intros fs prog old new older newer dir Hold Hnew Hnan.
  split; [exact (script_stdout fs prog old new older newer Hold Hnew) |].
  intros Hin.
  destruct (growth_entries_dir older newer dir (into_dict_NoDup _ _ _ Hnew) Hin)
    as [size [Hsize [_ Hgt]]].
  destruct Hnan as [Hnan | Hnan].
  - rewrite (item_unique newer dir size S754_nan
               (into_dict_NoDup _ _ _ Hnew) Hsize Hnan) in Hgt.
    rewrite (proj1 (sub_nan_not_positive _)) in Hgt. discriminate Hgt.
  - rewrite (get_of_item older dir S754_nan zero
               (into_dict_NoDup _ _ _ Hold) Hnan) in Hgt.
    rewrite (proj2 (sub_nan_not_positive _)) in Hgt. discriminate Hgt.
Qed.

Lemma X4_nan_size_witness :
  into_dict (two_reports (lines_text ["x NaN"; "y 1"]) (lines_text ["x 15"; "y 2"]))
    "old" = Ok [("x", S754_nan); ("y", Py.float_of_int 1)]
  /\ ~ In "x"
       (map fst
          (growth_entries [("x", S754_nan); ("y", Py.float_of_int 1)]
                          [("x", Py.float_of_int 15); ("y", Py.float_of_int 2)])).
Proof.
  split; [vm_compute; reflexivity |].
  refine (proj2 (X4_nan_size_never_printed
            (two_reports (lines_text ["x NaN"; "y 1"]) (lines_text ["x 15"; "y 2"]))
            "find_growth_directories.py" "old" "new"
            [("x", S754_nan); ("y", Py.float_of_int 1)]
            [("x", Py.float_of_int 15); ("y", Py.float_of_int 2)]
            "x" _ _ _)).
  - vm_compute. reflexivity.
  - vm_compute. reflexivity.
  - right. left. reflexivity.
Defined.

(** ** The first line that fails *)

Lemma list_comprehension_raise_first {A B : Type} (f : A -> result B)
  (l : list A) (e : exn) :
  list_comprehension f l = Raise e ->
  exists l1 x l2,
    l = (l1 ++ x :: l2)%list /\
    (forall y, In y l1 -> exists b, f y = Ok b) /\ f x = Raise e.
Proof.
  induction l as [| y l IH]; simpl; [discriminate |].
  destruct (f y) as [b | e0] eqn:Ey; simpl.
  - destruct (list_comprehension f l) as [ys | e1]; simpl; [discriminate |].
    intros H; inversion H; subst.
    destruct (IH eq_refl) as [l1 [x [l2 [-> [Hok Hx]]]]].
    exists (y :: l1), x, l2. split; [reflexivity |]. split; [| exact Hx].
    intros z [<- | Hz]; [exists b; exact Ey | exact (Hok z Hz)].
  - intros H; inversion H; subst. exists [], y, l.
    split; [reflexivity |]. split; [intros z [] | exact Ey].
Qed.

Lemma list_comprehension_total {A B : Type} (f : A -> result B) (l : list A) :
  (forall x, In x l -> exists b, f x = Ok b) ->
  exists ys, list_comprehension f l = Ok ys.
Proof.
  induction l as [| x l IH]; simpl; intros H.
  - exists []. reflexivity.
  - destruct (H x (or_introl eq_refl)) as [b ->].
    destruct IH as [ys ->]; [intros y Hy; apply H; right; exact Hy |].
    exists (b :: ys). reflexivity.
Qed.

Lemma Forall2_In_left {A B : Type} (P : A -> B -> Prop) (l : list A)
  (ys : list B) (x : A) :
  Forall2 P l ys -> In x l -> exists y, P x y.
Proof.
  induction 1 as [| a b l ys Hab _ IH]; simpl; [intros [] |].
  intros [<- | Hin]; [exists b; exact Hab | exact (IH Hin)].
Qed.

Lemma item_of_tokens_raise_iff (s : list string) (e : exn) :
  item_of_tokens s = Raise e <->
  (e = IndexError /\ s = []) \/
  (e = ValueError /\
   exists tokens t, s = (tokens ++ [t])%list /\ Py.float t = Raise ValueError).
Proof.
  split.
  - intros H. destruct s as [| t0 s0] eqn:Es.
    + left. inversion H. split; reflexivity.
    + right. rewrite <- Es in *.
      destruct (exists_last (l := s)) as [tokens [t Hs]]; [congruence |].
      unfold item_of_tokens in H. rewrite Hs, item_last_snoc in H. simpl in H.
      destruct (Py.float t) as [v | e0] eqn:Ef; simpl in H; [discriminate |].
      inversion H; subst e0. pose proof (float_raises _ _ Ef) as ->.
      split; [reflexivity |]. exists tokens, t. split; [exact Hs | exact Ef].
  - intros [[-> ->] | [-> [tokens [t [-> Hf]]]]]; [reflexivity |].
    unfold item_of_tokens. rewrite item_last_snoc. simpl. rewrite Hf. reflexivity.
Qed.

Lemma item_of_tokens_ok_iff (s : list string) :
  (exists kv, item_of_tokens s = Ok kv) <->
  exists tokens t v, s = (tokens ++ [t])%list /\ Py.float t = Ok v.
Proof.
  split.
  - intros [kv H]. destruct (item_of_tokens_ok s kv H) as [t [Hlast [Hv _]]].
    destruct s as [| t0 s0] eqn:Es; [discriminate Hlast |].
    rewrite <- Es in *.
    destruct (exists_last (l := s)) as [tokens [t' Hs]]; [congruence |].
    rewrite Hs, item_last_snoc in Hlast. inversion Hlast; subst t'.
    exists tokens, t, (snd kv). split; assumption.
  - intros [tokens [t [v [-> Hf]]]]. exists (Py.join " " (Py.but_last (tokens ++ [t])), v).
    unfold item_of_tokens. rewrite item_last_snoc. simpl. rewrite Hf. reflexivity.
Qed.

(** X5: the exception of a report whose file is read as text and that does
    not parse is the exception of its first line that fails: [IndexError]
    for a line without token, [ValueError] for a line whose last token is
    not a float literal. *)
Theorem X5_exception_of_first_bad_line :
  forall (fs : filesystem) (file_name content : string) (e : exn),
    fs file_name = Some content ->
    (into_dict fs file_name = Raise e <->
     exists before line after,
       Py.readlines content = (before ++ line :: after)%list /\
       (forall l, In l before ->
                  exists kv, item_of_tokens (Py.split l) = Ok kv) /\
       ((e = IndexError /\ Py.split line = []) \/
        (e = ValueError /\
         exists tokens t,
           Py.split line = (tokens ++ [t])%list /\
           Py.float t = Raise ValueError))).
Proof.
  intros fs file_name content e Hfs.
  rewrite (into_dict_items _ _ _ Hfs). unfold line_items. split.
  - intros H.
    destruct (list_comprehension item_of_tokens
                (map Py.split (Py.readlines content))) as [kvs | e0] eqn:E;
      simpl in H; [discriminate |].
    inversion H; subst e0.
    apply list_comprehension_raise_first in E.
    destruct E as [l1 [x [l2 [Hl [Hok Hx]]]]].
    apply map_eq_app in Hl.
    destruct Hl as [before [rest [Hlines [Hbefore Hrest]]]].
    apply map_eq_cons in Hrest.
    destruct Hrest as [line [after [-> [Hline Hafter]]]].
    subst x l1. exists before, line, after.
    split; [exact Hlines |]. split.
    + intros l Hl. apply Hok. apply in_map. exact Hl.
    + apply item_of_tokens_raise_iff. exact Hx.
  - intros [before [line [after [Hlines [Hok Hline]]]]].
    rewrite Hlines, map_app. simpl.
    rewrite (list_comprehension_first_raise item_of_tokens
               (map Py.split before) (map Py.split after) (Py.split line) e);
      [reflexivity | |].
    + intros s Hs. apply in_map_iff in Hs. destruct Hs as [l [<- Hl]].
      exact (Hok l Hl).
    + apply item_of_tokens_raise_iff. exact Hline.
Qed.

Lemma X5_first_bad_line_witness :
  into_dict (two_reports "" (lines_text ["a 1"; ""; "b x"])) "new"
  = Raise IndexError
  /\ exists before line after,
       Py.readlines (lines_text ["a 1"; ""; "b x"])
       = (before ++ line :: after)%list /\
       (forall l, In l before ->
                  exists kv, item_of_tokens (Py.split l) = Ok kv) /\
       ((IndexError = IndexError /\ Py.split line = []) \/
        (IndexError = ValueError /\
         exists tokens t,
           Py.split line = (tokens ++ [t])%list /\
           Py.float t = Raise ValueError)).
Proof.
  assert (Hraise : into_dict (two_reports "" (lines_text ["a 1"; ""; "b x"]))
                     "new" = Raise IndexError) by (vm_compute; reflexivity).
  split; [exact Hraise |].
  apply (proj1 (X5_exception_of_first_bad_line
                  (two_reports "" (lines_text ["a 1"; ""; "b x"])) "new"
                  (lines_text ["a 1"; ""; "b x"]) IndexError eq_refl)).
  exact Hraise.
Defined.

(** X6: a report parses exactly when its file can be read and every line
    has at least one token, the last of which is a float literal. *)
Theorem X6_report_parses_iff :
  forall (fs : filesystem) (file_name : string),
    (exists d, into_dict fs file_name = Ok d) <->
    (exists content,
        fs file_name = Some content /\
        forall line, In line (Py.readlines content) ->
                     exists tokens t v,
                       Py.split line = (tokens ++ [t])%list /\
                       Py.float t = Ok v).
Proof.
  intros fs file_name. split.
  - intros [d Hd].
    destruct (into_dict_ok fs file_name d Hd) as [content [kvs [Hfs [Hkvs _]]]].
    exists content. split; [exact Hfs |]. intros line Hin.
    apply item_of_tokens_ok_iff.
    unfold line_items in Hkvs. apply list_comprehension_Forall2 in Hkvs.
    apply (in_map Py.split) in Hin.
    destruct (Forall2_In_left _ _ _ _ Hkvs Hin) as [kv Hkv].
    exists kv. exact Hkv.
  - intros [content [Hfs Hlines]].
    rewrite (into_dict_items _ _ _ Hfs). unfold line_items.
    destruct (list_comprehension_total item_of_tokens
                (map Py.split (Py.readlines content))) as [kvs ->].
    + intros s Hs. apply in_map_iff in Hs. destruct Hs as [line [<- Hin]].
      apply item_of_tokens_ok_iff. exact (Hlines line Hin).
    + exists (store_items [] kvs). reflexivity.
Qed.

(** ** Tokens and keys *)

Lemma string_app_assoc (a b c : string) : ((a ++ b) ++ c = a ++ b ++ c)%string.
Proof.
  induction a as [| x a IH]; simpl; [reflexivity | rewrite IH; reflexivity].
Qed.

Lemma string_app_nil_r (a : string) : (a ++ "")%string = a.
Proof.
  induction a as [| x a IH]; simpl; [reflexivity | rewrite IH; reflexivity].
Qed.

Lemma is_empty_app (a b : string) :
  Py.is_empty (a ++ b) = Py.is_empty a && Py.is_empty b.
Proof.
  destruct a; reflexivity.
Qed.

Lemma no_space_app (a b : string) :
  no_space (a ++ b) = no_space a && no_space b.
Proof.
  induction a as [| x a IH]; simpl; [reflexivity |].
  rewrite IH, andb_assoc. reflexivity.
Qed.

Lemma split_from_token (t rest tok : string) :
  no_space t = true ->
  Py.split_from tok (t ++ rest) = Py.split_from (tok ++ t) rest.
Proof.
  revert tok. induction t as [| c t IH]; intros tok H.
  - simpl. rewrite string_app_nil_r. reflexivity.
  - simpl in H. apply andb_true_iff in H. destruct H as [Hc Ht].
    apply negb_true_iff in Hc.
    change (Py.split_from tok (String c (t ++ rest)) =
            Py.split_from (tok ++ String c t) rest).
    cbn [Py.split_from]. rewrite Hc, (IH _ Ht), string_app_assoc. reflexivity.
Qed.

Lemma split_from_tokens (s tok : string) :
  no_space tok = true -> Forall token (Py.split_from tok s).
Proof.
  revert tok. induction s as [| c s IH]; intros tok Htok; cbn [Py.split_from].
  - destruct tok as [| x tok]; simpl; constructor; [| constructor].
    split; [discriminate | exact Htok].
  - destruct (Py.isspace c) eqn:Ec.
    + destruct tok as [| x tok]; simpl; [apply IH; reflexivity |].
      constructor; [split; [discriminate | exact Htok] | apply IH; reflexivity].
    + apply IH. rewrite no_space_app, Htok. simpl. rewrite Ec. reflexivity.
Qed.

Lemma split_join (tokens : list string) :
  Forall token tokens -> Py.split (Py.join " " tokens) = tokens.
Proof.
  unfold Py.split. induction 1 as [| t tokens [Hne Ht] Hrest IH]; [reflexivity |].
  destruct tokens as [| t2 tokens].
  - cbn [Py.join]. rewrite <- (string_app_nil_r t) at 1.
    rewrite (split_from_token t "" "" Ht). simpl.
    destruct t; [congruence | reflexivity].
  - change (Py.join " " (t :: t2 :: tokens))
      with (t ++ String " " (Py.join " " (t2 :: tokens))).
    rewrite (split_from_token t _ "" Ht). cbn [append Py.split_from].
    change (Py.isspace " ") with true. cbv iota.
    destruct t; [congruence |]. cbn [Py.is_empty]. rewrite IH. reflexivity.
Qed.

Lemma Forall_removelast {A : Type} (P : A -> Prop) (l : list A) :
  Forall P l -> Forall P (removelast l).
Proof.
  induction 1 as [| x l Hx Hl IH]; simpl; [constructor |].
  destruct l; [constructor | constructor; assumption].
Qed.

Lemma split_from_trailing (ws tok : string) :
  all_space ws = true -> Py.split_from tok ws = Py.split_from tok "".
Proof.
  revert tok. induction ws as [| c ws IH]; intros tok H; [reflexivity |].
  simpl in H. apply andb_true_iff in H. destruct H as [Hc Hws].
  cbn [Py.split_from]. rewrite Hc, (IH "" Hws). reflexivity.
Qed.

Lemma split_from_app_trailing (s ws tok : string) :
  all_space ws = true -> Py.split_from tok (s ++ ws) = Py.split_from tok s.
Proof.
  intros Hws. revert tok. induction s as [| c s IH]; intros tok.
  - apply split_from_trailing. exact Hws.
  - change (Py.split_from tok (String c (s ++ ws)) =
            Py.split_from tok (String c s)).
    cbn [Py.split_from]. rewrite !IH. reflexivity.
Qed.

Lemma first_occurrences_In (seen ks : list string) (k : string) :
  In k (first_occurrences seen ks) -> In k ks.
Proof.
  revert seen. induction ks as [| k0 ks IH]; intros seen; simpl; [tauto |].
  destruct (existsb (String.eqb k0) seen).
  - intros H. right. exact (IH _ H).
  - intros [H | H]; [left; exact H | right; exact (IH _ H)].
Qed.

Lemma key_of_line_tokens (line : string) :
  Forall token (Py.but_last (Py.split line)).
Proof.
  apply Forall_removelast. apply split_from_tokens. reflexivity.
Qed.

Lemma keys_of_parsed_report (fs : filesystem) (file_name : string)
  (d : SizeReport) (k : string) :
  into_dict fs file_name = Ok d -> In k (Py.keys d) ->
  exists content line,
    fs file_name = Some content /\ In line (Py.readlines content) /\
    k = key_of_line line.
Proof.
  intros Hd Hk.
  destruct (into_dict_ok fs file_name d Hd) as [content [kvs [Hfs [Hkvs ->]]]].
  rewrite keys_store in Hk. simpl in Hk. apply first_occurrences_In in Hk.
  unfold line_items in Hkvs. apply list_comprehension_Forall2 in Hkvs.
  rewrite (Forall2_keys _ _ Hkvs) in Hk. apply in_map_iff in Hk.
  destruct Hk as [line [<- Hin]]. exists content, line.
  repeat split; assumption.
Qed.

Lemma key_normal_form (fs : filesystem) (file_name : string)
  (d : SizeReport) (k : string) :
  into_dict fs file_name = Ok d -> In k (Py.keys d) ->
  Forall token (Py.split k) /\ Py.join " " (Py.split k) = k.
Proof.
  intros Hd Hk.
  destruct (keys_of_parsed_report fs file_name d k Hd Hk)
    as [content [line [_ [_ ->]]]].
  pose proof (split_join _ (key_of_line_tokens line)) as H.
  fold (key_of_line line) in H. rewrite H.
  split; [apply key_of_line_tokens | reflexivity].
Qed.

(** X7: the keys of a parsed report are in normal form: a key is the key of
    one of the lines, its tokens are not empty and hold no whitespace, and it
    is these tokens joined by single spaces, so that splitting a key and
    joining the tokens gives the key back. *)
Theorem X7_keys_in_normal_form :
  forall (fs : filesystem) (file_name : string) (d : SizeReport) (k : string),
    into_dict fs file_name = Ok d ->
    In k (Py.keys d) ->
    (exists content line,
        fs file_name = Some content /\ In line (Py.readlines content) /\
        k = key_of_line line /\ Py.split k = Py.but_last (Py.split line))
    /\ Forall token (Py.split k)
    /\ Py.join " " (Py.split k) = k.
Proof.
  intros fs file_name d k Hd Hk.
  destruct (key_normal_form fs file_name d k Hd Hk) as [Htok Hjoin].
  split; [| split; assumption].
  destruct (keys_of_parsed_report fs file_name d k Hd Hk)
    as [content [line [Hfs [Hin ->]]]].
  exists content, line. repeat split; try assumption.
  exact (split_join _ (key_of_line_tokens line)).
Qed.

Lemma X7_keys_normal_form_witness :
  Py.join " " (Py.split "my dir") = "my dir".
Proof.
  refine (proj2 (proj2 (X7_keys_in_normal_form
            (two_reports "" (lines_text ["  my" ++ String "009" " dir   10"; "x 1"]))
            "new" [("my dir", Py.float_of_int 10); ("x", Py.float_of_int 1)]
            "my dir" _ _))).
  - vm_compute. reflexivity.
  - left. reflexivity.
Defined.

(** X8: whitespace before the first token of a line and after the last one,
    the line end included, does not count: the line gives the same tokens,
    and so the same item or the same exception. *)
Theorem X8_surrounding_whitespace_ignored :
  forall (before line after : string),
    all_space before = true ->
    all_space after = true ->
    Py.split (before ++ line ++ after) = Py.split line
    /\ item_of_tokens (Py.split (before ++ line ++ after)) =
       item_of_tokens (Py.split line).
Proof.
  intros before line after Hb Ha.
  assert (H : Py.split (before ++ line ++ after) = Py.split line).
  { unfold Py.split. rewrite (split_from_spaces before _ Hb).
    apply split_from_app_trailing. exact Ha. }
  split; [exact H | rewrite H; reflexivity].
Qed.

Lemma X8_surrounding_whitespace_witness :
  item_of_tokens
    (Py.split (String "009" " " ++ "a b 1.5" ++ " " ++ String Py.CR (String Py.LF ""))) =
  item_of_tokens (Py.split "a b 1.5").
Proof.
  refine (proj2 (X8_surrounding_whitespace_ignored
                   (String "009" " ") "a b 1.5"
                   (" " ++ String Py.CR (String Py.LF "")) _ _)).
  - reflexivity.
  - reflexivity.
Defined.

(** ** The text of a growth is a float literal *)

Lemma plain_char_facts (c : ascii) :
  plain_char c = true ->
  Py.float_space c = false /\ Py.isspace c = false /\ Ascii.eqb c "_" = false.
Proof.
  destruct c as [[|] [|] [|] [|] [|] [|] [|] [|]];
    try discriminate; intros _; repeat split; reflexivity.
Qed.

Lemma plain_app (a b : string) : plain (a ++ b) = plain a && plain b.
Proof.
  induction a as [| x a IH]; simpl; [reflexivity |].
  rewrite IH, andb_assoc. reflexivity.
Qed.

Lemma plain_no_space (s : string) : plain s = true -> no_space s = true.
Proof.
  induction s as [| c s IH]; simpl; [reflexivity |].
  intros H. apply andb_true_iff in H. destruct H as [Hc Hs].
  destruct (plain_char_facts c Hc) as [_ [-> _]]. exact (IH Hs).
Qed.

Lemma lstrip_plain (s : string) : plain s = true -> Py.lstrip s = s.
Proof.
  destruct s as [| c s]; simpl; [reflexivity |].
  intros H. apply andb_true_iff in H. destruct H as [Hc _].
  destruct (plain_char_facts c Hc) as [-> _]. reflexivity.
Qed.

Lemma rstrip_plain (s : string) : plain s = true -> Py.rstrip s = s.
Proof.
  induction s as [| c s IH]; simpl; [reflexivity |].
  intros H. apply andb_true_iff in H. destruct H as [Hc Hs].
  destruct (plain_char_facts c Hc) as [-> _].
  rewrite (IH Hs), andb_false_r. reflexivity.
Qed.

Lemma drop_underscores_plain (s : string) (prev : ascii) :
  Ascii.eqb prev "_" = false -> plain s = true ->
  Py.drop_underscores prev s = Some s.
Proof.
  revert prev. induction s as [| c s IH]; intros prev Hprev H; simpl.
  - rewrite Hprev. reflexivity.
  - simpl in H. apply andb_true_iff in H. destruct H as [Hc Hs].
    destruct (plain_char_facts c Hc) as [_ [_ Hu]].
    rewrite Hu, Hprev. simpl. rewrite (IH c Hu Hs). reflexivity.
Qed.

Lemma plain_zeros (k : nat) : plain (Py.zeros k) = true.
Proof.
  induction k as [| k IH]; simpl; [reflexivity | exact IH].
Qed.

Lemma plain_uint (u : Decimal.uint) :
  plain (NilEmpty.string_of_uint u) = true.
Proof.
  induction u; simpl; assumption || reflexivity.
Qed.

Lemma span_digits_uint (u : Decimal.uint) :
  snd (Py.span_digits (NilEmpty.string_of_uint u)) = "" /\
  (u <> Decimal.Nil -> fst (Py.span_digits (NilEmpty.string_of_uint u)) <> []).
Proof.
  induction u as [| u [IH _] | u [IH _] | u [IH _] | u [IH _] | u [IH _]
                  | u [IH _] | u [IH _] | u [IH _] | u [IH _] | u [IH _]];
    cbn [NilEmpty.string_of_uint Py.span_digits];
    try (split; [reflexivity | congruence]);
    change (Py.is_digit _) with true; cbv iota;
    destruct (Py.span_digits (NilEmpty.string_of_uint u)) as [ds rest];
    cbn [fst snd] in *; (split; [exact IH | discriminate]).
Qed.

Lemma digit_char_cases (digit : Z) :
  0 <= digit <= 9 ->
  digit = 0 \/ digit = 1 \/ digit = 2 \/ digit = 3 \/ digit = 4 \/
  digit = 5 \/ digit = 6 \/ digit = 7 \/ digit = 8 \/ digit = 9.
Proof. lia. Qed.

Lemma nilzero_string_spec (u : Decimal.uint) :
  plain (NilZero.string_of_uint u) = true /\
  exists d ds, Py.span_digits (NilZero.string_of_uint u) = (d :: ds, "").
Proof.
  assert (Hu : u = Decimal.Nil \/
               (u <> Decimal.Nil /\
                NilZero.string_of_uint u = NilEmpty.string_of_uint u)).
  { destruct u; [left; reflexivity | right; split; [discriminate | reflexivity] ..]. }
  destruct Hu as [-> | [Hne ->]].
  - split; [reflexivity | eexists; eexists; reflexivity].
  - split; [apply plain_uint |].
    destruct (span_digits_uint u) as [Hs Hf]. specialize (Hf Hne).
    destruct (Py.span_digits (NilEmpty.string_of_uint u)) as [[| d ds] rest];
      cbn [fst snd] in *; [congruence |].
    subst rest. exists d, ds. reflexivity.
Qed.

Lemma exponent_digits_spec (n : Z) :
  0 <= n ->
  plain (Py.exponent_digits n) = true /\
  exists d ds, Py.span_digits (Py.exponent_digits n) = (d :: ds, "").
Proof.
  intros Hn. unfold Py.exponent_digits. destruct (n <? 10) eqn:E.
  - apply Z.ltb_lt in E.
    destruct (digit_char_cases n ltac:(lia))
      as [-> | [-> | [-> | [-> | [-> | [-> | [-> | [-> | [-> | ->]]]]]]]]];
      (split; [reflexivity | eexists; eexists; reflexivity]).
  - apply nilzero_string_spec.
Qed.

Lemma span_digits_zeros (k : nat) (s : string) :
  Py.span_digits (Py.zeros k ++ s) =
  ((repeat 0 k ++ fst (Py.span_digits s))%list, snd (Py.span_digits s)).
Proof.
  induction k as [| k IH].
  - simpl. destruct (Py.span_digits s); reflexivity.
  - change (Py.span_digits (String "0" (Py.zeros k ++ s)) =
            ((0 :: repeat 0 k ++ fst (Py.span_digits s))%list,
             snd (Py.span_digits s))).
    cbn [Py.span_digits]. change (Py.is_digit "0") with true. cbv iota.
    rewrite IH. reflexivity.
Qed.

Lemma render_chars_plain (q m decpt : Z) :
  1 <= q <= 9 -> 0 <= m <= 9 ->
  plain (Py.render_chars (Py.digit_char q) (Py.digit_char m) (m =? 0) decpt)
  = true.
Proof.
  intros Hq Hm.
  assert (Hq' : q = 1 \/ q = 2 \/ q = 3 \/ q = 4 \/ q = 5 \/ q = 6 \/ q = 7 \/
                q = 8 \/ q = 9) by lia.
  pose proof (digit_char_cases m Hm) as Hm'. clear Hq Hm.
  unfold Py.render_chars.
  destruct ((decpt <=? -4) || (1 <? decpt)).
  - rewrite plain_app. apply andb_true_iff. split.
    + digit_cases Hq' Hm'; reflexivity.
    + destruct (decpt - 1 <? 0);
        exact (proj1 (exponent_digits_spec _ (Z.abs_nonneg _))).
  - destruct (decpt =? 1).
    + digit_cases Hq' Hm'; reflexivity.
    + change ("0." ++ Py.zeros (Z.to_nat (- decpt)) ++ ?s)
        with (String "0" (String "." (Py.zeros (Z.to_nat (- decpt)) ++ s))).
      cbn [plain]. rewrite plain_app, plain_zeros.
      digit_cases Hq' Hm'; reflexivity.
Qed.

Lemma render_chars_not_empty (c1 c2 : ascii) (last : bool) (decpt : Z) :
  Py.render_chars c1 c2 last decpt <> "".
Proof.
  unfold Py.render_chars.
  destruct ((decpt <=? -4) || (1 <? decpt)); [discriminate |].
  destruct (decpt =? 1); discriminate.
Qed.

Lemma float_render_chars (q m decpt : Z) :
  1 <= q <= 9 -> 0 <= m <= 9 ->
  exists v,
    Py.float (Py.render_chars (Py.digit_char q) (Py.digit_char m) (m =? 0) decpt)
    = Ok v.
Proof.
  intros Hq Hm. pose proof (render_chars_plain q m decpt Hq Hm) as Hplain.
  unfold Py.float.
  rewrite (lstrip_plain _ Hplain), (rstrip_plain _ Hplain),
    (drop_underscores_plain _ Ascii.zero eq_refl Hplain).
  clear Hplain.
  assert (Hq' : q = 1 \/ q = 2 \/ q = 3 \/ q = 4 \/ q = 5 \/ q = 6 \/ q = 7 \/
                q = 8 \/ q = 9) by lia.
  pose proof (digit_char_cases m Hm) as Hm'. clear Hq Hm.
  unfold Py.render_chars.
  destruct ((decpt <=? -4) || (1 <? decpt)).
  - destruct (exponent_digits_spec (Z.abs (decpt - 1)) (Z.abs_nonneg _))
      as [_ [d [ds HE]]].
    set (E := Py.exponent_digits (Z.abs (decpt - 1))) in *. clearbody E.
    destruct (decpt - 1 <? 0);
      digit_cases Hq' Hm'; compute_digit_chars; simpl;
      unfold Py.parse_number; simpl; rewrite HE; eexists; reflexivity.
  - destruct (decpt =? 1).
    + digit_cases Hq' Hm'; eexists; reflexivity.
    + set (k := Z.to_nat (- decpt)). clearbody k.
      digit_cases Hq' Hm'; compute_digit_chars; simpl;
        unfold Py.parse_number; simpl; rewrite span_digits_zeros; simpl;
        eexists; reflexivity.
Qed.

(** ** The printed lines are report lines *)

Lemma growth_text_spec (growth : Py.binary64) :
  Py.gt growth zero = true ->
  token (Py.format_2 growth) /\ exists v, Py.float (Py.format_2 growth) = Ok v.
Proof.
  intros Hgt. destruct (gt_zero_inv growth Hgt) as [-> | [m [e ->]]].
  - split; [split; [discriminate | reflexivity] |].
    exists (S754_infinity false). reflexivity.
  - destruct (format_2_finite m e) as [r [decpt [Hr [_ ->]]]].
    unfold Py.render.
    assert (Hq : 1 <= r / 10 <= 9).
    { split; [apply Z.div_le_lower_bound | apply Z.lt_succ_r, Z.div_lt_upper_bound];
        lia. }
    assert (Hm : 0 <= r mod 10 <= 9) by (pose proof (Z.mod_pos_bound r 10); lia).
    split; [split |].
    + apply render_chars_not_empty.
    + apply plain_no_space, render_chars_plain; assumption.
    + apply float_render_chars; assumption.
Qed.

Lemma join_snoc (tokens : list string) (t : string) :
  tokens <> [] ->
  Py.join " " (tokens ++ [t]) = Py.join " " tokens ++ " " ++ t.
Proof.
  induction tokens as [| x tokens IH]; [congruence |]. intros _.
  destruct tokens as [| y tokens]; [reflexivity |].
  change (Py.join " " ((x :: y :: tokens) ++ [t]))
    with (x ++ " " ++ Py.join " " ((y :: tokens) ++ [t])).
  rewrite IH by discriminate.
  change (Py.join " " (x :: y :: tokens))
    with (x ++ " " ++ Py.join " " (y :: tokens)).
  rewrite !string_app_assoc. reflexivity.
Qed.

Lemma split_key_and_text (k text : string) :
  Forall token (Py.split k) -> Py.join " " (Py.split k) = k -> token text ->
  Py.split (k ++ " " ++ text) = (Py.split k ++ [text])%list.
Proof.
  intros Htok Hjoin Htext.
  destruct (Py.split k) as [| t0 tokens] eqn:Ek.
  - simpl in Hjoin. subst k. unfold Py.split.
    change (Py.split_from "" (String " " text) = [text]).
    cbn [Py.split_from]. change (Py.isspace " ") with true. cbv iota.
    cbn [Py.is_empty]. rewrite <- (string_app_nil_r text) at 1.
    rewrite (split_from_token text "" "" (proj2 Htext)). simpl.
    destruct text; [destruct Htext; congruence | reflexivity].
  - rewrite <- Hjoin at 1. rewrite <- join_snoc by discriminate.
    apply split_join. apply Forall_app. split; [exact Htok |].
    constructor; [exact Htext | constructor].
Qed.

Lemma entry_line_parses (fs : filesystem) (new : string)
  (older newer : SizeReport) (dir : string) (growth : Py.binary64) :
  into_dict fs new = Ok newer ->
  In (dir, growth) (growth_entries older newer) ->
  Py.split (output_line dir growth) =
    (Py.split dir ++ [Py.format_2 growth])%list /\
  key_of_line (output_line dir growth) = dir /\
  exists v,
    Py.float (Py.format_2 growth) = Ok v /\
    item_of_tokens (Py.split (output_line dir growth)) = Ok (dir, v).
Proof.
  intros Hnew Hin.
  apply growth_entries_In in Hin. destruct Hin as [size [Hsize [Hg Hgt]]].
  destruct (growth_text_spec growth Hgt) as [Htext [v Hv]].
  apply (in_map fst) in Hsize. cbn [fst] in Hsize.
  destruct (key_normal_form fs new newer dir Hnew Hsize) as [Htok Hjoin].
  pose proof (split_key_and_text dir _ Htok Hjoin Htext) as Hsplit.
  assert (Hkey : key_of_line (output_line dir growth) = dir).
  { unfold key_of_line, output_line, Py.but_last.
    rewrite Hsplit, removelast_last. exact Hjoin. }
  split; [exact Hsplit |]. split; [exact Hkey |].
  exists v. split; [exact Hv |].
  unfold item_of_tokens. fold (key_of_line (output_line dir growth)).
  rewrite Hkey. unfold output_line at 1. rewrite Hsplit, item_last_snoc.
  simpl. rewrite Hv. reflexivity.
Qed.

Lemma NoDup_filter_map_fst {A B : Type} (f : A * B -> A * B)
  (P : A * B -> bool) (l : list (A * B)) :
  (forall x, fst (f x) = fst x) ->
  NoDup (map fst l) -> NoDup (map fst (filter P (map f l))).
Proof.
  intros Hf. induction l as [| x l IH]; simpl; intros Hnd; [constructor |].
  inversion Hnd as [| ? ? Hx Hl]; subst.
  destruct (P (f x)); [| exact (IH Hl)].
  simpl. constructor; [| exact (IH Hl)].
  rewrite Hf. intros Hin. apply Hx.
  apply in_map_iff in Hin. destruct Hin as [y [Hy Hin]].
  apply filter_In in Hin. destruct Hin as [Hin _].
  apply in_map_iff in Hin. destruct Hin as [z [<- Hz]].
  rewrite Hf in Hy. rewrite <- Hy. apply in_map. exact Hz.
Qed.

Lemma growth_entries_NoDup (older newer : SizeReport) :
  NoDup (Py.keys newer) -> NoDup (map fst (growth_entries older newer)).
Proof.
  intros Hnd. unfold growth_entries.
  apply NoDup_filter_map_fst; [reflexivity | exact Hnd].
Qed.

(** X9: every printed line is a report line: its tokens are those of the
    directory followed by the text of the growth, which is a float literal,
    so that the line gives the directory as its key. *)
Theorem X9_printed_lines_are_report_lines :
  forall (fs : filesystem) (prog old new : string) (older newer : SizeReport)
         (line : string),
    into_dict fs old = Ok older ->
    into_dict fs new = Ok newer ->
    In line (stdout (script fs [prog; old; new])) ->
    exists dir growth v,
      In (dir, growth) (growth_entries older newer) /\
      line = output_line dir growth /\
      Py.split line = (Py.split dir ++ [Py.format_2 growth])%list /\
      Py.float (Py.format_2 growth) = Ok v /\
      item_of_tokens (Py.split line) = Ok (dir, v).
Proof.
  intros fs prog old new older newer line Hold Hnew Hin.
  rewrite (script_stdout fs prog old new older newer Hold Hnew) in Hin.
  apply in_map_iff in Hin. destruct Hin as [[dir growth] [<- Hin]].
  destruct (entry_line_parses fs new older newer dir growth Hnew Hin)
    as [Hsplit [_ [v [Hv Hitem]]]].
  exists dir, growth, v. repeat split; assumption.
Qed.

Lemma X9_printed_lines_witness :
  exists dir growth v,
    In (dir, growth)
       (growth_entries [("my dir", Py.float_of_int 1)]
                       [("my dir", Py.float_of_int 251); ("x", Py.float_of_int 0)])
    /\ "my dir 2.5e+02" = output_line dir growth
    /\ Py.split "my dir 2.5e+02" = (Py.split dir ++ [Py.format_2 growth])%list
    /\ Py.float (Py.format_2 growth) = Ok v
    /\ item_of_tokens (Py.split "my dir 2.5e+02") = Ok (dir, v).
Proof.
  refine (X9_printed_lines_are_report_lines
            (two_reports (lines_text ["my dir 1"]) (lines_text ["my  dir 251"; "x 0"]))
            "find_growth_directories.py" "old" "new"
            [("my dir", Py.float_of_int 1)]
            [("my dir", Py.float_of_int 251); ("x", Py.float_of_int 0)]
            "my dir 2.5e+02" _ _ _).
  - vm_compute. reflexivity.
  - vm_compute. reflexivity.
  - vm_compute. left. reflexivity.
Defined.

(** X10: no directory and no line is printed twice, and there are at most
    as many lines as the newer report has keys. *)
Theorem X10_no_line_twice :
  forall (fs : filesystem) (prog old new : string) (older newer : SizeReport),
    into_dict fs old = Ok older ->
    into_dict fs new = Ok newer ->
    NoDup (map fst (growth_entries older newer))
    /\ NoDup (stdout (script fs [prog; old; new]))
    /\ (List.length (stdout (script fs [prog; old; new]))
        <= List.length (Py.keys newer))%nat.
Proof.
  intros fs prog old new older newer Hold Hnew.
  pose proof (growth_entries_NoDup older newer (into_dict_NoDup _ _ _ Hnew))
    as Hnd.
  rewrite (script_stdout fs prog old new older newer Hold Hnew).
  split; [exact Hnd |]. split.
  - apply (NoDup_map_inv key_of_line). rewrite map_map.
    rewrite (map_ext_in _ fst); [exact Hnd |].
    intros [dir growth] Hin. unfold entry_line. cbn [fst snd].
    exact (proj1 (proj2 (entry_line_parses fs new older newer dir growth
                           Hnew Hin))).
  - unfold growth_entries, Py.keys, Py.items. rewrite !length_map.
    etransitivity; [apply filter_length_le |].
    rewrite length_map. reflexivity.
Qed.

Lemma X10_no_line_twice_witness :
  NoDup (stdout (script (two_reports (lines_text ["a 1"])
                           (lines_text ["a 3"; "b 2"; "a 5"; "b 2"]))
                   ["find_growth_directories.py"; "old"; "new"])).
Proof.
  refine (proj1 (proj2 (X10_no_line_twice
            (two_reports (lines_text ["a 1"]) (lines_text ["a 3"; "b 2"; "a 5"; "b 2"]))
            "find_growth_directories.py" "old" "new"
            [("a", Py.float_of_int 1)]
            [("a", Py.float_of_int 5); ("b", Py.float_of_int 2)] _ _))).
  - vm_compute. reflexivity.
  - vm_compute. reflexivity.
Defined.

(** ** The output as a report *)

Lemma readlines_from_line (l rest cur : string) :
  no_newline l = true ->
  Py.readlines_from cur (l ++ String Py.LF rest) =
  (cur ++ l ++ String Py.LF "") :: Py.readlines_from "" rest.
Proof.
  revert cur. induction l as [| c l IH]; intros cur H.
  - reflexivity.
  - simpl in H. apply andb_true_iff in H. destruct H as [H Hl].
    apply andb_true_iff in H. destruct H as [Hlf Hcr].
    apply negb_true_iff in Hlf, Hcr.
    change (Py.readlines_from cur (String c (l ++ String Py.LF rest)) =
            (cur ++ String c (l ++ String Py.LF "")) :: Py.readlines_from "" rest).
    cbn [Py.readlines_from]. rewrite Hlf, Hcr, (IH _ Hl), string_app_assoc.
    reflexivity.
Qed.

Lemma lines_text_cons (l : string) (ls : list string) :
  lines_text (l :: ls) = l ++ String Py.LF (lines_text ls).
Proof.
  unfold lines_text. destruct ls as [| l2 ls].
  - reflexivity.
  - cbn [map String.concat]. rewrite string_app_assoc. reflexivity.
Qed.

Lemma readlines_lines_text (ls : list string) :
  Forall (fun l => no_newline l = true) ls ->
  Py.readlines (lines_text ls) = map (fun l => l ++ String Py.LF "") ls.
Proof.
  unfold Py.readlines. induction 1 as [| l ls Hl _ IH]; [reflexivity |].
  rewrite lines_text_cons, (readlines_from_line l _ "" Hl), IH. reflexivity.
Qed.

Lemma no_newline_app (a b : string) :
  no_newline (a ++ b) = no_newline a && no_newline b.
Proof.
  induction a as [| x a IH]; simpl; [reflexivity |].
  rewrite IH, !andb_assoc. reflexivity.
Qed.

Lemma no_space_no_newline (s : string) :
  no_space s = true -> no_newline s = true.
Proof.
  induction s as [| c s IH]; simpl; [reflexivity |].
  intros H. apply andb_true_iff in H. destruct H as [Hc Hs].
  rewrite (IH Hs), andb_true_r. apply negb_true_iff in Hc.
  destruct (Ascii.eqb c Py.LF) eqn:E1.
  - apply Ascii.eqb_eq in E1. subst c. discriminate Hc.
  - destruct (Ascii.eqb c Py.CR) eqn:E2; [| reflexivity].
    apply Ascii.eqb_eq in E2. subst c. discriminate Hc.
Qed.

Lemma no_newline_join (tokens : list string) :
  Forall token tokens -> no_newline (Py.join " " tokens) = true.
Proof.
  induction 1 as [| t tokens [_ Ht] _ IH]; [reflexivity |].
  destruct tokens as [| t2 tokens].
  - apply no_space_no_newline. exact Ht.
  - change (Py.join " " (t :: t2 :: tokens))
      with (t ++ String " " (Py.join " " (t2 :: tokens))).
    rewrite no_newline_app, (no_space_no_newline t Ht). simpl. exact IH.
Qed.

Lemma entry_line_no_newline (fs : filesystem) (new : string)
  (older newer : SizeReport) (entry : string * Py.binary64) :
  into_dict fs new = Ok newer ->
  In entry (growth_entries older newer) ->
  no_newline (entry_line entry) = true.
Proof.
  destruct entry as [dir growth]. intros Hnew Hin.
  pose proof Hin as Hin'.
  apply growth_entries_In in Hin'. destruct Hin' as [size [Hsize [_ Hgt]]].
  destruct (growth_text_spec growth Hgt) as [[_ Htext] _].
  apply (in_map fst) in Hsize. cbn [fst] in Hsize.
  destruct (key_normal_form fs new newer dir Hnew Hsize) as [Htok Hjoin].
  unfold entry_line, output_line. cbn [fst snd].
  rewrite no_newline_app, <- Hjoin, (no_newline_join _ Htok).
  simpl. apply no_space_no_newline. exact Htext.
Qed.

Lemma first_occurrences_NoDup (seen ks : list string) :
  NoDup (seen ++ ks) -> first_occurrences seen ks = ks.
Proof.
  revert seen. induction ks as [| k ks IH]; intros seen Hnd; [reflexivity |].
  simpl. destruct (existsb (String.eqb k) seen) eqn:E.
  - apply existsb_eqb_In in E. apply NoDup_remove_2 in Hnd.
    exfalso. apply Hnd. apply in_or_app. left. exact E.
  - rewrite IH; [reflexivity |]. rewrite <- app_assoc. exact Hnd.
Qed.

Lemma entry_lines_items (fs : filesystem) (new : string)
  (older newer : SizeReport) (entries : list (string * Py.binary64)) :
  into_dict fs new = Ok newer ->
  incl entries (growth_entries older newer) ->
  exists kvs,
    list_comprehension item_of_tokens
      (map Py.split (map (fun l => l ++ String Py.LF "") (map entry_line entries)))
    = Ok kvs /\
    map fst kvs = map fst entries.
Proof.
  intros Hnew. induction entries as [| [dir growth] entries IH]; intros Hincl.
  - exists []. split; reflexivity.
  - destruct IH as [kvs [Hkvs Hkeys]];
      [intros x Hx; apply Hincl; right; exact Hx |].
    destruct (entry_line_parses fs new older newer dir growth Hnew
                (Hincl _ (or_introl eq_refl))) as [_ [_ [v [_ Hitem]]]].
    exists ((dir, v) :: kvs). cbn [map list_comprehension].
    unfold entry_line at 1. cbn [fst snd].
    assert (Hsplit : Py.split (output_line dir growth ++ String Py.LF "") =
                     Py.split (output_line dir growth))
      by (apply split_from_app_trailing; reflexivity).
    rewrite Hsplit, Hitem. simpl. rewrite Hkvs. simpl.
    split; [reflexivity | rewrite Hkeys; reflexivity].
Qed.

(** X11: the output is a report: written to a file, one line each with a
    line end, it parses, and the keys of the dict are the directories that
    were printed, in the order of the lines. *)
Theorem X11_output_is_a_report :
  forall (fs fs' : filesystem) (prog old new out : string)
         (older newer : SizeReport),
    into_dict fs old = Ok older ->
    into_dict fs new = Ok newer ->
    fs' out = Some (lines_text (stdout (script fs [prog; old; new]))) ->
    exists d,
      into_dict fs' out = Ok d /\
      Py.keys d = map fst (growth_entries older newer).
Proof.
  intros fs fs' prog old new out older newer Hold Hnew Hout.
  rewrite (script_stdout fs prog old new older newer Hold Hnew) in Hout.
  rewrite (into_dict_items _ _ _ Hout). unfold line_items.
  rewrite readlines_lines_text.
  - destruct (entry_lines_items fs new older newer (growth_entries older newer)
                Hnew (incl_refl _)) as [kvs [-> Hkeys]].
    exists (store_items [] kvs). split; [reflexivity |].
    rewrite keys_store, Hkeys. simpl. apply first_occurrences_NoDup. simpl.
    apply growth_entries_NoDup. exact (into_dict_NoDup _ _ _ Hnew).
  - apply Forall_forall. intros line Hin. apply in_map_iff in Hin.
    destruct Hin as [entry [<- Hin]].
    exact (entry_line_no_newline fs new older newer entry Hnew Hin).
Qed.

Lemma X11_output_is_a_report_witness :
  exists d,
    into_dict (two_reports (lines_text ["my dir 1.2e+02"; "x 0.5"]) "") "old" = Ok d
    /\ Py.keys d =
       map fst (growth_entries [("x", Py.float_of_int 1); ("my dir", Py.float_of_int 5)]
                  [("my dir", Py.float_of_int 125);
                   ("x", Py.float_of_decimal false 15 (-1))]).
Proof.
  refine (X11_output_is_a_report
            (two_reports (lines_text ["x 1"; "my dir 5"])
               (lines_text ["my dir 125"; "x 1.5"]))
            (two_reports (lines_text ["my dir 1.2e+02"; "x 0.5"]) "")
            "find_growth_directories.py" "old" "new" "old"
            [("x", Py.float_of_int 1); ("my dir", Py.float_of_int 5)]
            [("my dir", Py.float_of_int 125); ("x", Py.float_of_decimal false 15 (-1))]
            _ _ _).
  - vm_compute. reflexivity.
  - vm_compute. reflexivity.
  - vm_compute. reflexivity.
Defined.

(** X12: the older report counts only through the directories of the newer
    one: two older reports that give the same sizes for the keys of the
    newer report give the same output, whatever else they hold. *)
Theorem X12_older_report_frame :
  forall (fs fs' : filesystem) (prog old new : string)
         (older older' newer : SizeReport),
    into_dict fs old = Ok older ->
    into_dict fs' old = Ok older' ->
    into_dict fs new = Ok newer ->
    into_dict fs' new = Ok newer ->
    (forall dir, In dir (Py.keys newer) ->
                 Py.get older dir zero = Py.get older' dir zero) ->
    stdout (script fs [prog; old; new]) = stdout (script fs' [prog; old; new]).
Proof.
  intros fs fs' prog old new older older' newer Hold Hold' Hnew Hnew' Hsame.
  rewrite (script_stdout fs prog old new older newer Hold Hnew).
  rewrite (script_stdout fs' prog old new older' newer Hold' Hnew').
  unfold growth_entries. f_equal. f_equal.
  apply map_ext_in. intros [dir size] Hin. unfold growth_of. cbn [fst snd].
  rewrite (Hsame dir); [reflexivity |].
  apply (in_map fst) in Hin. exact Hin.
Qed.

Lemma X12_older_report_frame_witness :
  stdout (script (two_reports (lines_text ["x 10"; "gone 7"]) (lines_text ["x 15"; "y 1"]))
            ["find_growth_directories.py"; "old"; "new"]) =
  stdout (script (two_reports (lines_text ["away 3"; "x 1e1"]) (lines_text ["x 15"; "y 1"]))
            ["find_growth_directories.py"; "old"; "new"]).
Proof.
  refine (X12_older_report_frame
            (two_reports (lines_text ["x 10"; "gone 7"]) (lines_text ["x 15"; "y 1"]))
            (two_reports (lines_text ["away 3"; "x 1e1"]) (lines_text ["x 15"; "y 1"]))
            "find_growth_directories.py" "old" "new"
            [("x", Py.float_of_int 10); ("gone", Py.float_of_int 7)]
            [("away", Py.float_of_int 3); ("x", Py.float_of_int 10)]
            [("x", Py.float_of_int 15); ("y", Py.float_of_int 1)] _ _ _ _ _).
  - vm_compute. reflexivity.
  - vm_compute. reflexivity.
  - vm_compute. reflexivity.
  - vm_compute. reflexivity.
  - intros dir [<- | [<- | []]]; reflexivity.
Defined.

(** * The rounding of a growth *)

(** ** A nearest number of two digits *)

Lemma pow10_ge_10 (j : Z) : 0 < j -> 10 <= 10 ^ j.
Proof.
  intros Hj. replace j with (Z.succ (j - 1)) by lia.
  rewrite Z.pow_succ_r by lia. pose proof (Z.pow_pos_nonneg 10 (j - 1)). lia.
Qed.

(** A number within half a unit of [N / D], which is at least 9.95 units, is
    a nearest number of two digits. *)
Lemma bracket_nearest (N D r : Z) :
  0 < D -> 10 <= r <= 99 -> 2 * Z.abs (N - r * D) <= D -> 199 * D <= 20 * N ->
  forall r' t : Z,
    10 <= r' <= 99 ->
    Z.abs (N - r * D) <= Z.abs (N - r' * D) /\
    (10 <= t ->
     Z.abs (N - r * D) <= Z.abs (N - r' * t * D) /\
     Z.abs (N - r * D) * t <= Z.abs (N * t - r' * D)).
Proof.
  intros HD Hr Hhalf Hlow r' t Hr'.
  assert (Hx : 10 * D <= r * D <= 99 * D).
  { split; apply Z.mul_le_mono_nonneg_r; lia. }
  assert (Hx11 : r * D = 10 * D \/ 11 * D <= r * D).
  { destruct (Z.eq_dec r 10) as [-> | Hne]; [left; reflexivity | right].
    apply Z.mul_le_mono_nonneg_r; lia. }
  assert (Hy : 10 * D <= r' * D <= 99 * D).
  { split; apply Z.mul_le_mono_nonneg_r; lia. }
  assert (Hxy : r' * D = r * D \/ r' * D + D <= r * D \/ r * D + D <= r' * D).
  { destruct (Z.lt_trichotomy r' r) as [H | [H | H]].
    - right. left.
      assert ((r' + 1) * D <= r * D)
        by (apply Z.mul_le_mono_nonneg_r; lia). lia.
    - left. subst r'. reflexivity.
    - right. right.
      assert ((r + 1) * D <= r' * D)
        by (apply Z.mul_le_mono_nonneg_r; lia). lia. }
  replace (r' * t * D) with (t * (r' * D)) by ring.
  set (x := r * D) in *. set (y := r' * D) in *. clearbody x y.
  split; [lia |]. intros Ht. split.
  - assert (Hty : 10 * y <= t * y)
      by (apply Z.mul_le_mono_nonneg_r; lia).
    lia.
  - assert (Hgap : 99 * D <= (N - Z.abs (N - x)) * 10) by lia.
    assert (Hmul : (N - Z.abs (N - x)) * 10 <= (N - Z.abs (N - x)) * t)
      by (apply Z.mul_le_mono_nonneg_l; lia).
    replace (Z.abs (N - x) * t) with (N * t - (N - Z.abs (N - x)) * t) by ring.
    set (z := N * t) in *. set (w := (N - Z.abs (N - x)) * t) in *.
    clearbody z w. lia.
Qed.

Lemma two_digits_unfold (n d : Z) :
  0 < n -> 0 < d ->
  exists d1 n2 k2 : Z,
    0 < d1 /\ 10 * d1 <= n2 < 100 * d1 /\
    ((d1 = d /\ n2 = n * 10 ^ (2 - k2) /\ k2 <= 2) \/
     (n2 = n /\ 2 <= k2 /\ d1 = d * 10 ^ (k2 - 2))) /\
    Py.two_digits n d =
      (if Py.round_half_even n2 d1 =? 100 then (10, k2 + 1)
       else (Py.round_half_even n2 d1, k2)).
Proof.
  intros Hn Hd. unfold Py.two_digits.
  pose proof (Z.log2_nonneg n) as Hln.
  pose proof (Z.log2_spec n Hn) as Hspec.
  destruct (scale_down_spec (S (Z.to_nat (Z.log2 n))) n d 2 Hd) as [H1 [H2 _]].
  { rewrite Nat2Z.inj_succ, Z2Nat.id by lia.
    pose proof (pow2_le_pow10 (Z.succ (Z.log2 n)) ltac:(lia)). nia. }
  destruct (scale_down_value (S (Z.to_nat (Z.log2 n))) n d 2)
    as [Hk1 [Hd1 Hidle]].
  destruct (Py.scale_down (S (Z.to_nat (Z.log2 n))) n d 2) as [d1 k1].
  cbn [fst snd] in H1, H2, Hk1, Hd1, Hidle.
  assert (Hd1pos : 0 < d1) by lia.
  pose proof (Z.log2_nonneg d1) as Hld.
  pose proof (Z.log2_spec d1 Hd1pos) as Hspec1.
  pose proof (scale_up_spec (Z.to_nat (Z.log2 d1) + 2) n d1 k1 Hn Hd1pos H2)
    as Hup.
  destruct (scale_up_value (Z.to_nat (Z.log2 d1) + 2) n d1 k1) as [Hk2 Hn2].
  pose proof (scale_up_idle (Z.to_nat (Z.log2 d1) + 2) n d1 k1) as Hidle2.
  destruct (Py.scale_up (Z.to_nat (Z.log2 d1) + 2) n d1 k1) as [n2 k2].
  cbn [fst snd] in Hup, Hk2, Hn2.
  assert (Hrange : 10 * d1 <= n2 < 100 * d1).
  { apply Hup. rewrite Nat2Z.inj_add, Z2Nat.id by lia.
    change (Z.of_nat 2) with 2.
    rewrite Z.pow_add_r by lia. change (10 ^ 2) with 100.
    pose proof (pow2_le_pow10 (Z.log2 d1) Hld).
    rewrite Z.pow_succ_r in Hspec1 by lia. nia. }
  exists d1, n2, k2. split; [exact Hd1pos |]. split; [exact Hrange |].
  split; [| reflexivity].
  destruct Hidle as [-> | Hfar].
  - left. rewrite Z.sub_diag, Z.pow_0_r in Hd1. repeat split; lia.
  - right. specialize (Hidle2 Hfar). inversion Hidle2; subst n2 k2.
    repeat split; [lia | exact Hd1].
Qed.

Lemma two_digits_bracket (n d : Z) :
  0 < n -> 0 < d ->
  0 < snd (in_units n d (snd (Py.two_digits n d))) /\
  2 * Z.abs (fst (in_units n d (snd (Py.two_digits n d)))
             - fst (Py.two_digits n d)
               * snd (in_units n d (snd (Py.two_digits n d))))
  <= snd (in_units n d (snd (Py.two_digits n d))) /\
  199 * snd (in_units n d (snd (Py.two_digits n d)))
  <= 20 * fst (in_units n d (snd (Py.two_digits n d))).
Proof.
  intros Hn Hd.
  destruct (two_digits_unfold n d Hn Hd)
    as [d1 [n2 [k2 [Hd1 [Hrange [Hcase ->]]]]]].
  pose proof (round_half_even_error n2 d1 Hd1) as Herr.
  pose proof (round_half_even_bounds n2 d1 Hd1 Hrange) as Hr.
  set (r := Py.round_half_even n2 d1) in *. clearbody r.
  unfold in_units.
  destruct Hcase as [[-> [-> Hk2]] | [-> [Hk2 ->]]].
  - destruct (r =? 100) eqn:E100; cbn [fst snd].
    + apply Z.eqb_eq in E100. subst r.
      replace (2 - k2) with (Z.succ (2 - (k2 + 1))) in * by lia.
      destruct (2 <=? k2 + 1) eqn:E2; cbn [fst snd].
      * apply Z.leb_le in E2.
        assert (Hk : k2 = 1 \/ k2 = 2) by lia.
        destruct Hk as [-> | ->].
        -- change (10 ^ (1 + 1 - 2)) with 1.
           change (10 ^ Z.succ (2 - (1 + 1))) with 10 in *. lia.
        -- change (10 ^ (2 + 1 - 2)) with 10.
           change (10 ^ Z.succ (2 - (2 + 1))) with 1 in *. lia.
      * apply Z.leb_gt in E2.
        rewrite Z.pow_succ_r in * by lia.
        set (Q := 10 ^ (2 - (k2 + 1))) in *.
        assert (HX : n * (10 * Q) = 10 * (n * Q)) by ring.
        rewrite HX in *. set (X := n * Q) in *. clearbody X. lia.
    + destruct (2 <=? k2) eqn:E2; cbn [fst snd].
      * apply Z.leb_le in E2. assert (k2 = 2) by lia. subst k2.
        change (10 ^ (2 - 2)) with 1 in *. lia.
      * set (X := n * 10 ^ (2 - k2)) in *. clearbody X. lia.
  - destruct (r =? 100) eqn:E100; cbn [fst snd].
    + apply Z.eqb_eq in E100. subst r.
      destruct (2 <=? k2 + 1) eqn:E2; [| apply Z.leb_gt in E2; lia].
      cbn [fst snd].
      replace (k2 + 1 - 2) with (Z.succ (k2 - 2)) by lia.
      rewrite Z.pow_succ_r by lia.
      set (P := 10 ^ (k2 - 2)) in *.
      replace (d * (10 * P)) with (10 * (d * P)) by ring.
      set (Y := d * P) in *. clearbody Y. lia.
    + destruct (2 <=? k2) eqn:E2; [| apply Z.leb_gt in E2; lia].
      cbn [fst snd]. set (Y := d * 10 ^ (k2 - 2)) in *. clearbody Y. lia.
Qed.

Lemma two_digits_nearest_value (n d : Z) :
  0 < n -> 0 < d ->
  nearest_two_digits n d (fst (Py.two_digits n d)) (snd (Py.two_digits n d)).
Proof.
  intros Hn Hd.
  destruct (two_digits_bracket n d Hn Hd) as [HD [Hhalf Hlow]].
  pose proof (two_digits_range n d Hn Hd) as Hr.
  intros r' k' Hr'.
  set (k := snd (Py.two_digits n d)) in *.
  set (N := fst (in_units n d k)) in *. set (D := snd (in_units n d k)) in *.
  set (r := fst (Py.two_digits n d)) in *.
  destruct (k <=? k') eqn:E.
  - apply Z.leb_le in E. destruct (Z.eq_dec k' k) as [-> | Hne].
    + rewrite Z.sub_diag, Z.pow_0_r, Z.mul_1_r.
      exact (proj1 (bracket_nearest N D r HD Hr Hhalf Hlow r' 1 Hr')).
    + apply (proj2 (bracket_nearest N D r HD Hr Hhalf Hlow r' _ Hr')).
      apply pow10_ge_10. lia.
  - apply Z.leb_gt in E.
    apply (proj2 (bracket_nearest N D r HD Hr Hhalf Hlow r' _ Hr')).
    apply pow10_ge_10. lia.
Qed.

(** ** Reading the text of a growth back *)

Lemma span_digits_uint_digits (u : Decimal.uint) :
  Py.span_digits (NilEmpty.string_of_uint u) = (uint_digits u, "").
Proof.
  induction u; cbn [NilEmpty.string_of_uint Py.span_digits uint_digits];
    try reflexivity;
    change (Py.is_digit _) with true; cbv iota; rewrite IHu; reflexivity.
Qed.

Lemma fold_uint_digits_acc (u : Decimal.uint) (acc : positive) :
  fold_left (fun a x => 10 * a + x) (uint_digits u) (Z.pos acc) =
  Z.pos (Pos.of_uint_acc u acc).
Proof.
  revert acc. induction u; intros acc;
    cbn [uint_digits fold_left Pos.of_uint_acc]; try reflexivity;
    rewrite <- IHu;
    match goal with
    | |- fold_left _ _ ?a = fold_left _ _ ?b => replace a with b by lia
    end; reflexivity.
Qed.

Lemma int_of_uint_digits (u : Decimal.uint) :
  Py.int_of_digits (uint_digits u) = Z.of_N (Pos.of_uint u).
Proof.
  unfold Py.int_of_digits.
  induction u; cbn [uint_digits fold_left Pos.of_uint]; try reflexivity;
    try exact IHu;
    cbn [Z.of_N]; rewrite <- fold_uint_digits_acc; reflexivity.
Qed.

Lemma exponent_digits_value (n : Z) :
  0 <= n ->
  exists d ds,
    Py.span_digits (Py.exponent_digits n) = (d :: ds, "") /\
    Py.int_of_digits (d :: ds) = n.
Proof.
  intros Hn. unfold Py.exponent_digits. destruct (n <? 10) eqn:E.
  - apply Z.ltb_lt in E.
    destruct (digit_char_cases n ltac:(lia))
      as [-> | [-> | [-> | [-> | [-> | [-> | [-> | [-> | [-> | ->]]]]]]]]];
      eexists; eexists; (split; reflexivity).
  - apply Z.ltb_ge in E.
    pose proof (DecimalN.Unsigned.of_to (Z.to_N n)) as Hof.
    unfold N.of_uint in Hof.
    pose proof (int_of_uint_digits (N.to_uint (Z.to_N n))) as Hint.
    rewrite Hof, Z2N.id in Hint by lia.
    pose proof (span_digits_uint_digits (N.to_uint (Z.to_N n))) as Hspan.
    destruct (N.to_uint (Z.to_N n)) as [| u | u | u | u | u | u | u | u | u | u]
      eqn:Eu;
      [change (0 = n) in Hint; lia | ..];
      unfold NilZero.string_of_uint; rewrite Hspan;
      eexists; eexists; (split; [reflexivity | exact Hint]).
Qed.

Lemma parse_exponent_of_render (decpt : Z) :
  Py.parse_exponent
    (String "e" (String (if decpt - 1 <? 0 then "-" else "+")
                    (Py.exponent_digits (Z.abs (decpt - 1))))) =
  Some (decpt - 1).
Proof.
  destruct (exponent_digits_value (Z.abs (decpt - 1)) (Z.abs_nonneg _))
    as [d [ds [Hspan Hint]]].
  unfold Py.parse_exponent. change (Ascii.eqb (Py.lower "e") "e") with true.
  cbv iota. destruct (decpt - 1 <? 0) eqn:E.
  - change (Py.parse_sign (String "-" ?s)) with (true, s). cbv iota beta.
    rewrite Hspan, Hint. apply Z.ltb_lt in E. cbn [cond_Zopp]. f_equal. lia.
  - change (Py.parse_sign (String "+" ?s)) with (false, s). cbv iota beta.
    rewrite Hspan, Hint. apply Z.ltb_ge in E. cbn [cond_Zopp]. f_equal. lia.
Qed.

Lemma parse_number_eq (s r1 r2 : string) (ip fp : list Z) (x : Z) :
  Py.span_digits s = (ip, r1) ->
  match r1 with
  | String c r => if Ascii.eqb c "." then Py.span_digits r else ([], r1)
  | EmptyString => ([], r1)
  end = (fp, r2) ->
  (ip ++ fp)%list <> [] ->
  Py.parse_exponent r2 = Some x ->
  Py.parse_number s =
  Some (Py.int_of_digits (ip ++ fp), x - Z.of_nat (List.length fp)).
Proof.
  intros H1 H2 Hne Hx. unfold Py.parse_number. rewrite H1, H2.
  destruct (ip ++ fp)%list eqn:E; [congruence |]. rewrite Hx. reflexivity.
Qed.

Lemma int_of_digits_zeros (k : nat) (l : list Z) :
  Py.int_of_digits (0 :: repeat 0 k ++ l) = Py.int_of_digits l.
Proof.
  unfold Py.int_of_digits. cbn [fold_left].
  induction k as [| k IH]; [reflexivity | exact IH].
Qed.

(** The text of the digits [q] and [m] with the point position [decpt]
    reads as the decimal number [(10 q + m) * 10^(decpt - 2)]. *)
Lemma parse_render_chars (q m decpt : Z) :
  1 <= q <= 9 -> 0 <= m <= 9 ->
  exists M E,
    Py.parse_number
      (Py.render_chars (Py.digit_char q) (Py.digit_char m) (m =? 0) decpt)
    = Some (M, E) /\
    ((M = 10 * q + m /\ E = decpt - 2) \/
     (m = 0 /\ M = q /\ E = decpt - 1)).
Proof.
  intros Hq Hm.
  assert (Hq' : q = 1 \/ q = 2 \/ q = 3 \/ q = 4 \/ q = 5 \/ q = 6 \/ q = 7 \/
                q = 8 \/ q = 9) by lia.
  pose proof (digit_char_cases m Hm) as Hm'. clear Hq Hm.
  unfold Py.render_chars.
  destruct ((decpt <=? -4) || (1 <? decpt)) eqn:Emode.
  - pose proof (parse_exponent_of_render decpt) as Hexp.
    set (T := String (if decpt - 1 <? 0 then _ else _) _) in *.
    clearbody T.
    digit_cases Hq' Hm'; compute_digit_chars;
      eexists; eexists;
      (split;
       [eapply parse_number_eq;
        [reflexivity | reflexivity | discriminate | exact Hexp]
       | first [left; split; [reflexivity | cbn; lia]
               | right; split; [reflexivity | split; [reflexivity | cbn; lia]]]]).
  - destruct (decpt =? 1) eqn:E1.
    + apply Z.eqb_eq in E1. subst decpt.
      digit_cases Hq' Hm'; eexists; eexists;
        (split; [reflexivity | left; split; reflexivity]).
    + apply Z.eqb_neq in E1. apply orb_false_iff in Emode.
      destruct Emode as [Ea Eb]. apply Z.leb_gt in Ea. apply Z.ltb_ge in Eb.
      assert (Hk : Z.of_nat (Z.to_nat (- decpt)) = - decpt) by lia.
      set (k := Z.to_nat (- decpt)) in *. clearbody k.
      digit_cases Hq' Hm'; compute_digit_chars;
        eexists; eexists;
        (split;
         [eapply parse_number_eq;
          [reflexivity
          | etransitivity; [apply span_digits_zeros | reflexivity]
          | discriminate
          | reflexivity]
         | cbn [app]; compute_span_digits;
           rewrite int_of_digits_zeros, length_app, repeat_length,
             Nat2Z.inj_add, Hk; cbn [List.length];
           first [left; split; [reflexivity | lia]
                 | right; split; [reflexivity | split; [reflexivity | lia]]]]).
Qed.

Lemma is_digit_cases (c : ascii) :
  Py.is_digit c = true ->
  c = "0"%char \/ c = "1"%char \/ c = "2"%char \/ c = "3"%char \/
  c = "4"%char \/ c = "5"%char \/ c = "6"%char \/ c = "7"%char \/
  c = "8"%char \/ c = "9"%char.
Proof.
  destruct c as [[|] [|] [|] [|] [|] [|] [|] [|]]; try discriminate; intros _;
    tauto.
Qed.

(** On a text of digits, points, signs and [e] that starts with a digit,
    [float] is the number that [parse_number] reads. *)
Lemma float_of_plain_number (c : ascii) (s : string) :
  Py.is_digit c = true -> plain (String c s) = true ->
  Py.float (String c s) =
  match Py.parse_number (String c s) with
  | Some (m, e) => Ok (Py.float_of_decimal false m e)
  | None => Raise ValueError
  end.
Proof.
  intros Hc Hplain. unfold Py.float.
  rewrite (lstrip_plain _ Hplain), (rstrip_plain _ Hplain),
    (drop_underscores_plain _ Ascii.zero eq_refl Hplain).
  destruct (is_digit_cases c Hc)
    as [-> | [-> | [-> | [-> | [-> | [-> | [-> | [-> | [-> | ->]]]]]]]]];
    reflexivity.
Qed.

Lemma render_chars_head (q m decpt : Z) :
  1 <= q <= 9 ->
  exists c s,
    Py.render_chars (Py.digit_char q) (Py.digit_char m) (m =? 0) decpt
    = String c s /\ Py.is_digit c = true.
Proof.
  intros Hq.
  assert (Hq' : q = 1 \/ q = 2 \/ q = 3 \/ q = 4 \/ q = 5 \/ q = 6 \/ q = 7 \/
                q = 8 \/ q = 9) by lia.
  unfold Py.render_chars.
  destruct ((decpt <=? -4) || (1 <? decpt));
    [| destruct (decpt =? 1);
       [| eexists; eexists; split; reflexivity]];
    destruct Hq' as [-> | [-> | [-> | [-> | [-> | [-> | [-> | [-> | ->]]]]]]]];
    eexists; eexists; (split; reflexivity).
Qed.

(** The text of a finite growth above zero reads, for [parse_number] and for
    [float], as the decimal number of its two digits. *)
Lemma format_2_reads_back (m : positive) (e : Z) :
  exists r decpt M E,
    Py.two_digits (fst (Py.fraction_of m e)) (snd (Py.fraction_of m e))
    = (r, decpt) /\
    Py.format_2 (S754_finite false m e) = Py.render r decpt /\
    Py.parse_number (Py.format_2 (S754_finite false m e)) = Some (M, E) /\
    Py.float (Py.format_2 (S754_finite false m e))
    = Ok (Py.float_of_decimal false M E) /\
    ((M = r /\ E = decpt - 2) \/ (r = 10 * M /\ E = decpt - 1)).
Proof.
  destruct (fraction_of_pos m e) as [Hn Hd].
  pose proof (two_digits_range _ _ Hn Hd) as Hr.
  unfold Py.format_2.
  destruct (Py.fraction_of m e) as [n d]. cbn [fst snd] in *.
  destruct (Py.two_digits n d) as [r decpt]. cbn [fst] in Hr.
  cbn [append]. unfold Py.render.
  assert (Hq : 1 <= r / 10 <= 9).
  { split; [apply Z.div_le_lower_bound | apply Z.lt_succ_r, Z.div_lt_upper_bound];
      lia. }
  assert (Hm : 0 <= r mod 10 <= 9) by (pose proof (Z.mod_pos_bound r 10); lia).
  pose proof (Z.div_mod r 10 ltac:(lia)) as Hdm.
  destruct (parse_render_chars (r / 10) (r mod 10) decpt Hq Hm)
    as [M [E [Hparse Hval]]].
  destruct (render_chars_head (r / 10) (r mod 10) decpt Hq) as [c [s [Hs Hc]]].
  pose proof (render_chars_plain (r / 10) (r mod 10) decpt Hq Hm) as Hplain.
  exists r, decpt, M, E. split; [reflexivity |]. split; [reflexivity |].
  split; [exact Hparse |]. split.
  - rewrite Hs in *. rewrite (float_of_plain_number c s Hc Hplain), Hparse.
    reflexivity.
  - destruct Hval as [[HM HE] | [H0 [HM HE]]]; [left | right]; split; lia.
Qed.

(** A float [m * 2^e] as a fraction. *)
Lemma fraction_of_value (m : positive) (e : Z) :
  0 < snd (Py.fraction_of m e) /\
  if 0 <=? e
  then fst (Py.fraction_of m e) = Z.pos m * 2 ^ e * snd (Py.fraction_of m e)
  else fst (Py.fraction_of m e) * 2 ^ (- e) = Z.pos m * snd (Py.fraction_of m e).
Proof.
  split; [exact (proj2 (fraction_of_pos m e)) |].
  unfold Py.fraction_of. destruct (0 <=? e); cbn [fst snd]; ring.
Qed.

(** The number 100 is not a nearest number of two digits to 97. *)
Lemma nearest_rejects_100_for_97 : ~ nearest_two_digits 97 1 10 3.
Proof.
  intros H. specialize (H 97 2 ltac:(lia)). vm_compute in H. apply H.
  reflexivity.
Qed.

(** C3, as the code has it: a growth that is printed is the infinity, and
    reads [inf], or is a finite positive number [m * 2^e]. That number,
    a fraction [n / d], is rounded to the number [r * 10^(decpt - 2)] of two
    significant digits [r], to which no other number of two significant
    digits is nearer. The text reads back, for [float], as that decimal
    number, and shows both digits, or the first only when the second is zero
    and the text is not of the form [d.0]: the growth 10 reads [1e+01] and
    the growth 0.5 reads [0.5]; with sizes 10 and 15 for [x] the line is
    [x 5.0]. *)
Theorem C3_at_most_two_significant_digits :
  (forall growth : Py.binary64,
      Py.gt growth zero = true ->
      (growth = S754_infinity false /\ Py.format_2 growth = "inf") \/
      exists m e n d r decpt M E,
        growth = S754_finite false m e /\
        (0 < d /\
         if 0 <=? e then n = Z.pos m * 2 ^ e * d
         else n * 2 ^ (- e) = Z.pos m * d) /\
        10 <= r <= 99 /\
        nearest_two_digits n d r decpt /\
        Py.parse_number (Py.format_2 growth) = Some (M, E) /\
        Py.float (Py.format_2 growth) = Ok (Py.float_of_decimal false M E) /\
        ((M = r /\ E = decpt - 2) \/ (r = 10 * M /\ E = decpt - 1)) /\
        significant_digits (Py.format_2 growth) =
          (if (r mod 10 =? 0) && negb (decpt =? 1) then 1%nat else 2%nat) /\
        (1 <= significant_digits (Py.format_2 growth) <= 2)%nat)
  /\ Py.format_2 (Py.float_of_int 10) = "1e+01"
  /\ Py.format_2 (Py.float_of_decimal false 5 (-1)) = "0.5"
  /\ stdout (script (two_reports (lines_text ["x 10"]) (lines_text ["x 15"]))
               ["find_growth_directories.py"; "old"; "new"]) = ["x 5.0"].
Proof.
  split; [| repeat split; vm_compute; reflexivity].
  intros growth Hgt.
  destruct (gt_zero_inv growth Hgt) as [-> | [m [e ->]]].
  - left. split; reflexivity.
  - right.
    destruct (format_2_reads_back m e)
      as [r [decpt [M [E [Htwo [Hfmt [Hparse [Hfloat Hval]]]]]]]].
    destruct (fraction_of_pos m e) as [Hn Hd].
    pose proof (two_digits_range _ _ Hn Hd) as Hr.
    pose proof (two_digits_nearest_value _ _ Hn Hd) as Hnear.
    rewrite Htwo in Hr, Hnear. cbn [fst snd] in Hr, Hnear.
    exists m, e, (fst (Py.fraction_of m e)), (snd (Py.fraction_of m e)),
      r, decpt, M, E.
    split; [reflexivity |]. split; [exact (fraction_of_value m e) |].
    split; [exact Hr |]. split; [exact Hnear |].
    split; [exact Hparse |]. split; [exact Hfloat |]. split; [exact Hval |].
    rewrite Hfmt, (significant_digits_render r decpt Hr).
    split; [reflexivity |].
    destruct ((r mod 10 =? 0) && negb (decpt =? 1)); lia.
Qed.

Lemma C3_significant_digits_witness :
  exists r decpt M E,
    10 <= r <= 99 /\
    Py.parse_number
      (Py.format_2 (Py.sub (Py.float_of_decimal false 1275 (-2))
                           (Py.float_of_int 10))) = Some (M, E) /\
    ((M = r /\ E = decpt - 2) \/ (r = 10 * M /\ E = decpt - 1)) /\
    (1 <= significant_digits
            (Py.format_2 (Py.sub (Py.float_of_decimal false 1275 (-2))
                                 (Py.float_of_int 10)))
     <= 2)%nat.
Proof.
  assert (Hgt : Py.gt (Py.sub (Py.float_of_decimal false 1275 (-2))
                              (Py.float_of_int 10)) zero = true)
    by (vm_compute; reflexivity).
  destruct (proj1 C3_at_most_two_significant_digits _ Hgt) as [Hinf | Hfin].
  - destruct Hinf as [Hinf _]. vm_compute in Hinf. discriminate Hinf.
  - destruct Hfin
      as [m [e [n [d [r [decpt [M [E [_ [_ [Hr [_ [Hp [_ [Hv [_ Hs]]]]]]]]]]]]]]]].
    exists r, decpt, M, E.
    split; [exact Hr |]. split; [exact Hp |]. split; [exact Hv | exact Hs].
Defined.

(** C3, as the claim states it, fails: with sizes 10 and 20 for [x] the
    growth 10.0 is printed as [1e+01], which shows one significant digit. *)
Lemma C3_exactly_two_digits_counterexample :
  stdout (script (two_reports (lines_text ["x 10"]) (lines_text ["x 20"]))
            ["find_growth_directories.py"; "old"; "new"]) = ["x 1e+01"]
  /\ Py.gt (Py.sub (Py.float_of_int 20) (Py.float_of_int 10)) zero = true
  /\ significant_digits
       (Py.format_2 (Py.sub (Py.float_of_int 20) (Py.float_of_int 10))) = 1%nat
  /\ significant_digits
       (Py.format_2 (Py.sub (Py.float_of_int 20) (Py.float_of_int 10))) <> 2%nat.
Proof.
  repeat split; try (vm_compute; reflexivity).
  vm_compute. discriminate.
Qed.
